(** * The to-do list component: a shallow embedding of its handlers

    The repository holds three copies of one React component:
    - [TodoList]  : src/components/TodoList.js, the authenticated variant;
    - [Page]      : src/app/page.js, the single-user variant;
    - [Part000]   : the older single-user copy, whose toggle, delete and
                    clear handlers only log a failure.

    A handler is an async function closed over the values of the last
    render.  It is embedded as a computation in a small monad [M] that
    threads the hook state, the trace of observable effects (requests to
    the hosted table, console output) and the clock, and that carries
    JavaScript exceptions.  The hosted table and the clock are oracles of
    the environment. *)

From Stdlib Require Import ZArith List Bool String Ascii Lia Permutation.
Import ListNotations.

Set Implicit Arguments.

(** ** JavaScript strings *)

Module JS.

(** A string is a sequence of UTF-16 code units. *)
Definition jsstring := list Z.

Definition lit (s : string) : jsstring :=
  List.map (fun a => Z.of_nat (nat_of_ascii a)) (list_ascii_of_string s).

Arguments lit : simpl never.

(** WhiteSpace and LineTerminator code points of ECMAScript, the ones
    [String.prototype.trim] strips. *)
Definition isWhiteSpace (c : Z) : bool :=
  ((9 <=? c) && (c <=? 13) || (c =? 32) || (c =? 160) || (c =? 5760)
   || (8192 <=? c) && (c <=? 8202) || (c =? 8232) || (c =? 8233)
   || (c =? 8239) || (c =? 8287) || (c =? 12288) || (c =? 65279))%Z.

Fixpoint trimStart (s : jsstring) : jsstring :=
  match s with
  | [] => []
  | c :: r => if isWhiteSpace c then trimStart r else s
  end.

Definition trimEnd (s : jsstring) : jsstring := rev (trimStart (rev s)).

Definition trim (s : jsstring) : jsstring := trimEnd (trimStart s).

(** ToBoolean on a string: only the empty string is falsy. *)
Definition truthy (s : jsstring) : bool :=
  match s with [] => false | _ :: _ => true end.

(** [===] on strings. *)
Fixpoint str_eq (a b : jsstring) : bool :=
  match a, b with
  | [], [] => true
  | x :: a', y :: b' => (x =? y)%Z && str_eq a' b'
  | _, _ => false
  end.

(** Thrown values.  The handlers only ever read [message]. *)
Inductive exn_kind := PostgrestError | TypeError | PlainError.

Record exn := { kind : exn_kind; message : jsstring }.

(** Reading property [prop] of [undefined] or [null] (V8's wording). *)
Definition read_of_undefined (prop : string) : exn :=
  {| kind := TypeError;
     message := lit "Cannot read properties of undefined (reading '"
                  ++ lit prop ++ lit "')" |}.

Definition read_of_null (prop : string) : exn :=
  {| kind := TypeError;
     message := lit "Cannot read properties of null (reading '"
                  ++ lit prop ++ lit "')" |}.

End JS.

Import JS.

(** ** Task records *)

(** A row of the [todos] table as the client sees it.  [updated_at] and
    [user_id] exist only in the authenticated variant's table. *)
Record todo := {
  id : Z;
  text : jsstring;
  completed : bool;
  created_at : jsstring;
  updated_at : option jsstring;
  user_id : option Z
}.

(** ** The hosted table *)

Module Supabase.

(** The object literal passed to [insert([...])]. *)
Record new_row := {
  nr_text : jsstring;
  nr_completed : bool;
  nr_user_id : option Z;
  nr_created_at : jsstring;
  nr_updated_at : option jsstring
}.

(** The query builders the handlers await.  The [option Z] is the
    [.eq('user_id', ...)] scope, the [option jsstring] the [updated_at]
    field of the update. *)
Inductive request :=
| Select (scope : option Z)
| Insert (row : new_row)
| UpdateCompleted (target : Z) (value : bool) (stamp : option jsstring) (scope : option Z)
| UpdateText (target : Z) (value : jsstring) (stamp : option jsstring) (scope : option Z)
| DeleteById (target : Z) (scope : option Z)
| DeleteCompleted (scope : option Z).

(** The [{ data, error }] object an awaited query resolves to; [None]
    is [null], the error is given by its message. *)
Record response := { data : option (list todo); error : option jsstring }.

(** The row returned by [insert(...).select()] is the inserted one. *)
Definition returns_inserted (row : new_row) (d : todo) : Prop :=
  text d = nr_text row /\ completed d = nr_completed row
  /\ created_at d = nr_created_at row /\ updated_at d = nr_updated_at row
  /\ user_id d = nr_user_id row.

End Supabase.

(** ** Effects *)

Module Eff.

Inductive logarg := LogMsg (m : jsstring) | LogErr (e : exn).

Inductive event :=
| PreventDefault
| Request (r : Supabase.request)
| ConsoleError (label : jsstring) (arg : logarg).

(** The environment: the table answers a request knowing the requests
    sent before it; the clock is read by tick. *)
Record env := {
  remote : list Supabase.request -> Supabase.request -> Supabase.response;
  clock : nat -> jsstring
}.

Record world (S : Type) := { comp : S; trace : list event; tick : nat }.

Inductive outcome (A : Type) := Ret (a : A) | Throw (e : exn).
Arguments Throw {A} e.

Definition M (S A : Type) := env -> world S -> outcome A * world S.

Fixpoint requests (t : list event) : list Supabase.request :=
  match t with
  | [] => []
  | Request r :: t' => r :: requests t'
  | _ :: t' => requests t'
  end.

Fixpoint logged (t : list event) : list (jsstring * logarg) :=
  match t with
  | [] => []
  | ConsoleError l a :: t' => (l, a) :: logged t'
  | _ :: t' => logged t'
  end.

Section Ops.
Context {S : Type}.

Definition ret {A} (a : A) : M S A := fun _ w => (Ret a, w).

Definition bind {A B} (m : M S A) (k : A -> M S B) : M S B :=
  fun E w =>
    match m E w with
    | (Ret a, w') => k a E w'
    | (Throw e, w') => (Throw e, w')
    end.

Definition throw {A} (e : exn) : M S A := fun _ w => (Throw e, w).

(** [try { body } catch (e) { handler }] *)
Definition try_catch {A} (body : M S A) (handler : exn -> M S A) : M S A :=
  fun E w =>
    match body E w with
    | (Ret a, w') => (Ret a, w')
    | (Throw e, w') => handler e E w'
    end.

(** [try { body } finally { fin }] *)
Definition try_finally {A} (body : M S A) (fin : M S unit) : M S A :=
  fun E w =>
    match body E w with
    | (r, w') =>
        match fin E w' with
        | (Ret _, w'') => (r, w'')
        | (Throw e, w'') => (Throw e, w'')
        end
    end.

(** [Array.prototype.map] with a callback that has effects: the elements
    are visited in order. *)
Fixpoint mapM {A B} (f : A -> M S B) (l : list A) : M S (list B) :=
  match l with
  | [] => ret []
  | x :: l' => bind (f x) (fun y => bind (mapM f l') (fun ys => ret (y :: ys)))
  end.

Definition emit (ev : event) : M S unit :=
  fun _ w => (Ret tt, {| comp := comp w; trace := trace w ++ [ev]; tick := tick w |}).

(** A [useState] setter. *)
Definition set_state (f : S -> S) : M S unit :=
  fun _ w => (Ret tt, {| comp := f (comp w); trace := trace w; tick := tick w |}).

(** [await <query>]: the request goes out, the response comes back. *)
Definition await (q : Supabase.request) : M S Supabase.response :=
  fun E w =>
    (Ret (remote E (requests (trace w)) q),
     {| comp := comp w; trace := trace w ++ [Request q]; tick := tick w |}).

(** [new Date().toISOString()] *)
Definition now : M S jsstring :=
  fun E w =>
    (Ret (clock E (tick w)),
     {| comp := comp w; trace := trace w; tick := Datatypes.S (tick w) |}).

Definition console_error (label : string) (a : logarg) : M S unit :=
  emit (ConsoleError (lit label) a).

Definition preventDefault : M S unit := emit PreventDefault.

(** [if (error) throw error] *)
Definition throw_if_error (r : Supabase.response) : M S unit :=
  match Supabase.error r with
  | Some m => throw {| kind := PostgrestError; message := m |}
  | None => ret tt
  end.

(** A handler [h] invoked from the render that shows state [c]: it is
    closed over [c] and starts from it, with an empty trace. *)
Definition start (c : S) : world S := {| comp := c; trace := []; tick := 0 |}.

Definition call {A} (E : env) (h : S -> M S A) (c : S) : outcome A * world S :=
  h c E (start c).

(** The same from a world already under way: the component re-rendered
    after the last handler, so the closure holds its current state. *)
Definition again {A} (E : env) (h : S -> M S A) (w : world S) : outcome A * world S :=
  h (comp w) E w.

(** The state and the effects a handler call ends with. *)
Definition after (E : env) (h : S -> M S unit) (c : S) : world S :=
  snd (call E h c).

Definition result (E : env) (h : S -> M S unit) (c : S) : outcome unit :=
  fst (call E h c).

Definition then_after (E : env) (h : S -> M S unit) (w : world S) : world S :=
  snd (again E h w).

End Ops.

End Eff.

Import Eff.

Declare Scope js_scope.
Delimit Scope js_scope with js.
Notation "x <- c1 ;; c2" := (bind c1 (fun x => c2))
  (at level 61, c1 at next level, right associativity) : js_scope.
Notation "c1 ;; c2" := (bind c1 (fun _ => c2))
  (at level 61, right associativity) : js_scope.
Open Scope js_scope.

(** ** src/components/TodoList.js *)

Module TodoList.

(** The hook values of one render: the seven [useState] cells and the
    [user] of [useAuth] ([None] is [null], [Some u] a user whose id is
    [u]). *)
Record component := {
  todos : list todo;
  newTodo : jsstring;
  filter : jsstring;
  loading : bool;
  error : option jsstring;
  editingTodo : option Z;
  editText : jsstring;
  user : option Z
}.

Definition setTodos (v : list todo) : M component unit :=
  set_state (fun c => {| todos := v; newTodo := newTodo c; filter := filter c;
    loading := loading c; error := error c; editingTodo := editingTodo c;
    editText := editText c; user := user c |}).

Definition setNewTodo (v : jsstring) : M component unit :=
  set_state (fun c => {| todos := todos c; newTodo := v; filter := filter c;
    loading := loading c; error := error c; editingTodo := editingTodo c;
    editText := editText c; user := user c |}).

Definition setFilter (v : jsstring) : M component unit :=
  set_state (fun c => {| todos := todos c; newTodo := newTodo c; filter := v;
    loading := loading c; error := error c; editingTodo := editingTodo c;
    editText := editText c; user := user c |}).

Definition setLoading (v : bool) : M component unit :=
  set_state (fun c => {| todos := todos c; newTodo := newTodo c; filter := filter c;
    loading := v; error := error c; editingTodo := editingTodo c;
    editText := editText c; user := user c |}).

Definition setError (v : option jsstring) : M component unit :=
  set_state (fun c => {| todos := todos c; newTodo := newTodo c; filter := filter c;
    loading := loading c; error := v; editingTodo := editingTodo c;
    editText := editText c; user := user c |}).

Definition setEditingTodo (v : option Z) : M component unit :=
  set_state (fun c => {| todos := todos c; newTodo := newTodo c; filter := filter c;
    loading := loading c; error := error c; editingTodo := v;
    editText := editText c; user := user c |}).

Definition setEditText (v : jsstring) : M component unit :=
  set_state (fun c => {| todos := todos c; newTodo := newTodo c; filter := filter c;
    loading := loading c; error := error c; editingTodo := editingTodo c;
    editText := v; user := user c |}).

(** [user.id] *)
Definition user_dot_id (c : component) : M component Z :=
  match user c with
  | Some u => ret u
  | None => throw (read_of_null "id")
  end.

Definition fetchTodos (c : component) : M component unit :=
  try_finally
    (try_catch
       (u <- user_dot_id c ;;
        r <- await (Supabase.Select (Some u)) ;;
        throw_if_error r ;;
        setTodos (match Supabase.data r with Some d => d | None => [] end))
       (fun e =>
          console_error "Error fetching todos:" (LogMsg (message e)) ;;
          setError (Some (message e))))
    (setLoading false).

Definition addTodo (c : component) : M component unit :=
  preventDefault ;;
  setError None ;;
  if negb (truthy (trim (newTodo c))) then
    setError (Some (lit "Todo text cannot be empty"))
  else
    try_catch
      (u <- user_dot_id c ;;
       t1 <- now ;;
       t2 <- now ;;
       r <- await (Supabase.Insert
                     {| Supabase.nr_text := trim (newTodo c);
                        Supabase.nr_completed := false;
                        Supabase.nr_user_id := Some u;
                        Supabase.nr_created_at := t1;
                        Supabase.nr_updated_at := Some t2 |}) ;;
       throw_if_error r ;;
       match Supabase.data r with
       | Some (d0 :: _) => setTodos (d0 :: todos c) ;; setNewTodo []
       | _ => ret tt
       end)
      (fun e =>
         console_error "Error adding todo:" (LogErr e) ;;
         setError (Some (message e))).

Definition startEditing (t : todo) (c : component) : M component unit :=
  setEditingTodo (Some (id t)) ;;
  setEditText (text t).

(** [{ ...todo, text: v, updated_at: t }] *)
Definition with_text (t : todo) (v : jsstring) (stamp : jsstring) : todo :=
  {| id := id t; text := v; completed := completed t;
     created_at := created_at t; updated_at := Some stamp; user_id := user_id t |}.

(** [{ ...todo, completed: v, updated_at: t }] *)
Definition with_completed (t : todo) (v : bool) (stamp : jsstring) : todo :=
  {| id := id t; text := text t; completed := v;
     created_at := created_at t; updated_at := Some stamp; user_id := user_id t |}.

Definition saveEdit (i : Z) (c : component) : M component unit :=
  try_catch
    (t1 <- now ;;
     u <- user_dot_id c ;;
     r <- await (Supabase.UpdateText i (trim (editText c)) (Some t1) (Some u)) ;;
     throw_if_error r ;;
     l <- mapM (fun t =>
                  if (id t =? i)%Z
                  then t2 <- now ;; ret (with_text t (trim (editText c)) t2)
                  else ret t)
               (todos c) ;;
     setTodos l ;;
     setEditingTodo None)
    (fun e =>
       console_error "Error updating todo:" (LogMsg (message e)) ;;
       setError (Some (message e))).

Definition cancelEdit (c : component) : M component unit :=
  setEditingTodo None ;;
  setEditText [].

Definition toggleTodo (i : Z) (c : component) : M component unit :=
  try_catch
    (v <- match List.find (fun t => (id t =? i)%Z) (todos c) with
          | Some t => ret (negb (completed t))
          | None => throw (read_of_undefined "completed")
          end ;;
     t1 <- now ;;
     u <- user_dot_id c ;;
     r <- await (Supabase.UpdateCompleted i v (Some t1) (Some u)) ;;
     throw_if_error r ;;
     l <- mapM (fun t =>
                  if (id t =? i)%Z
                  then t2 <- now ;; ret (with_completed t (negb (completed t)) t2)
                  else ret t)
               (todos c) ;;
     setTodos l)
    (fun e =>
       console_error "Error updating todo:" (LogMsg (message e)) ;;
       setError (Some (message e))).

Definition deleteTodo (i : Z) (c : component) : M component unit :=
  try_catch
    (u <- user_dot_id c ;;
     r <- await (Supabase.DeleteById i (Some u)) ;;
     throw_if_error r ;;
     setTodos (List.filter (fun t => negb (id t =? i)%Z) (todos c)))
    (fun e =>
       console_error "Error deleting todo:" (LogMsg (message e)) ;;
       setError (Some (message e))).

Definition clearCompleted (c : component) : M component unit :=
  try_catch
    (u <- user_dot_id c ;;
     r <- await (Supabase.DeleteCompleted (Some u)) ;;
     throw_if_error r ;;
     setTodos (List.filter (fun t => negb (completed t)) (todos c)))
    (fun e =>
       console_error "Error clearing completed todos:" (LogMsg (message e)) ;;
       setError (Some (message e))).

(** Recomputed at every render; no handler, no effect. *)
Definition filteredTodos (c : component) : list todo :=
  List.filter
    (fun t =>
       if str_eq (filter c) (lit "active") then negb (completed t)
       else if str_eq (filter c) (lit "completed") then completed t
       else true)
    (todos c).

(** The [onClick] of a filter button. *)
Definition clickFilter (mode : jsstring) (c : component) : M component unit :=
  setFilter mode.

End TodoList.

(** ** The single-user variant

    src/app/page.js and the older copy declare the same five state cells
    and have the same text for [fetchTodos], [addTodo] and
    [filteredTodos]; these are embedded once. *)

Module SingleUser.

Record component := {
  todos : list todo;
  newTodo : jsstring;
  filter : jsstring;
  loading : bool;
  error : option jsstring
}.

Definition setTodos (v : list todo) : M component unit :=
  set_state (fun c => {| todos := v; newTodo := newTodo c; filter := filter c;
    loading := loading c; error := error c |}).

Definition setNewTodo (v : jsstring) : M component unit :=
  set_state (fun c => {| todos := todos c; newTodo := v; filter := filter c;
    loading := loading c; error := error c |}).

Definition setFilter (v : jsstring) : M component unit :=
  set_state (fun c => {| todos := todos c; newTodo := newTodo c; filter := v;
    loading := loading c; error := error c |}).

Definition setLoading (v : bool) : M component unit :=
  set_state (fun c => {| todos := todos c; newTodo := newTodo c; filter := filter c;
    loading := v; error := error c |}).

Definition setError (v : option jsstring) : M component unit :=
  set_state (fun c => {| todos := todos c; newTodo := newTodo c; filter := filter c;
    loading := loading c; error := v |}).

Definition fetchTodos (c : component) : M component unit :=
  try_finally
    (try_catch
       (r <- await (Supabase.Select None) ;;
        throw_if_error r ;;
        setTodos (match Supabase.data r with Some d => d | None => [] end))
       (fun e =>
          console_error "Error fetching todos:" (LogMsg (message e)) ;;
          setError (Some (message e))))
    (setLoading false).

Definition addTodo (c : component) : M component unit :=
  preventDefault ;;
  setError None ;;
  if negb (truthy (trim (newTodo c))) then
    setError (Some (lit "Todo text cannot be empty"))
  else
    try_catch
      (t1 <- now ;;
       r <- await (Supabase.Insert
                     {| Supabase.nr_text := trim (newTodo c);
                        Supabase.nr_completed := false;
                        Supabase.nr_user_id := None;
                        Supabase.nr_created_at := t1;
                        Supabase.nr_updated_at := None |}) ;;
       match Supabase.error r with
       | Some m =>
           let e := {| kind := PostgrestError; message := m |} in
           console_error "Supabase error:" (LogErr e) ;;
           throw e
       | None => ret tt
       end ;;
       match Supabase.data r with
       | Some (d0 :: _) => setTodos (d0 :: todos c) ;; setNewTodo []
       | _ => throw {| kind := PlainError;
                       message := lit "No data returned from insert" |}
       end)
      (fun e =>
         console_error "Error adding todo:" (LogErr e) ;;
         setError (Some (message e))).

(** [{ ...todo, completed: v }] *)
Definition with_completed (t : todo) (v : bool) : todo :=
  {| id := id t; text := text t; completed := v;
     created_at := created_at t; updated_at := updated_at t; user_id := user_id t |}.

Definition filteredTodos (c : component) : list todo :=
  List.filter
    (fun t =>
       if str_eq (filter c) (lit "active") then negb (completed t)
       else if str_eq (filter c) (lit "completed") then completed t
       else true)
    (todos c).

Definition clickFilter (mode : jsstring) (c : component) : M component unit :=
  setFilter mode.

End SingleUser.

(** ** src/app/page.js *)

Module Page.
Import SingleUser.

Definition fetchTodos := SingleUser.fetchTodos.
Definition addTodo := SingleUser.addTodo.
Definition filteredTodos := SingleUser.filteredTodos.

Definition toggleTodo (i : Z) (c : component) : M component unit :=
  try_catch
    (v <- match List.find (fun t => (id t =? i)%Z) (todos c) with
          | Some t => ret (negb (completed t))
          | None => throw (read_of_undefined "completed")
          end ;;
     r <- await (Supabase.UpdateCompleted i v None None) ;;
     throw_if_error r ;;
     setTodos (List.map (fun t =>
                 if (id t =? i)%Z then with_completed t (negb (completed t)) else t)
               (todos c)))
    (fun e =>
       console_error "Error updating todo:" (LogMsg (message e)) ;;
       setError (Some (message e))).

Definition deleteTodo (i : Z) (c : component) : M component unit :=
  try_catch
    (r <- await (Supabase.DeleteById i None) ;;
     throw_if_error r ;;
     setTodos (List.filter (fun t => negb (id t =? i)%Z) (todos c)))
    (fun e =>
       console_error "Error deleting todo:" (LogMsg (message e)) ;;
       setError (Some (message e))).

Definition clearCompleted (c : component) : M component unit :=
  try_catch
    (r <- await (Supabase.DeleteCompleted None) ;;
     throw_if_error r ;;
     setTodos (List.filter (fun t => negb (completed t)) (todos c)))
    (fun e =>
       console_error "Error clearing completed todos:" (LogMsg (message e)) ;;
       setError (Some (message e))).

End Page.

(** ** The older single-user copy (unnamed/part_000)

    Its three handlers below catch and log, and stop there. *)

Module Part000.
Import SingleUser.

Definition fetchTodos := SingleUser.fetchTodos.
Definition addTodo := SingleUser.addTodo.
Definition filteredTodos := SingleUser.filteredTodos.

Definition toggleTodo (i : Z) (c : component) : M component unit :=
  try_catch
    (v <- match List.find (fun t => (id t =? i)%Z) (todos c) with
          | Some t => ret (negb (completed t))
          | None => throw (read_of_undefined "completed")
          end ;;
     r <- await (Supabase.UpdateCompleted i v None None) ;;
     throw_if_error r ;;
     setTodos (List.map (fun t =>
                 if (id t =? i)%Z then with_completed t (negb (completed t)) else t)
               (todos c)))
    (fun e => console_error "Error updating todo:" (LogMsg (message e))).

Definition deleteTodo (i : Z) (c : component) : M component unit :=
  try_catch
    (r <- await (Supabase.DeleteById i None) ;;
     throw_if_error r ;;
     setTodos (List.filter (fun t => negb (id t =? i)%Z) (todos c)))
    (fun e => console_error "Error deleting todo:" (LogMsg (message e))).

Definition clearCompleted (c : component) : M component unit :=
  try_catch
    (r <- await (Supabase.DeleteCompleted None) ;;
     throw_if_error r ;;
     setTodos (List.filter (fun t => negb (completed t)) (todos c)))
    (fun e => console_error "Error clearing completed todos:" (LogMsg (message e))).

End Part000.

(** ** The remote operations, by name

    The operations of the task store that reach the hosted table, as the
    view triggers them. *)

Module Op.

Inductive authenticated :=
| Load | Add | Toggle (i : Z) | Edit (i : Z) | Delete (i : Z) | ClearCompleted.

Inductive single_user :=
| SLoad | SAdd | SToggle (i : Z) | SDelete (i : Z) | SClearCompleted.

Definition todoList (a : authenticated) : TodoList.component -> M TodoList.component unit :=
  match a with
  | Load => TodoList.fetchTodos
  | Add => TodoList.addTodo
  | Toggle i => TodoList.toggleTodo i
  | Edit i => TodoList.saveEdit i
  | Delete i => TodoList.deleteTodo i
  | ClearCompleted => TodoList.clearCompleted
  end.

Definition page (a : single_user) : SingleUser.component -> M SingleUser.component unit :=
  match a with
  | SLoad => Page.fetchTodos
  | SAdd => Page.addTodo
  | SToggle i => Page.toggleTodo i
  | SDelete i => Page.deleteTodo i
  | SClearCompleted => Page.clearCompleted
  end.

Definition part000 (a : single_user) : SingleUser.component -> M SingleUser.component unit :=
  match a with
  | SLoad => Part000.fetchTodos
  | SAdd => Part000.addTodo
  | SToggle i => Part000.toggleTodo i
  | SDelete i => Part000.deleteTodo i
  | SClearCompleted => Part000.clearCompleted
  end.

End Op.

(** The hosted table reports a failure, whatever it is asked. *)
Definition fails (E : env) : Prop :=
  forall h q, Supabase.error (remote E h q) <> None.

(** The hosted table answers every insert with a row and no error. *)
Definition inserts (E : env) : Prop :=
  forall h row, exists d rest,
    remote E h (Supabase.Insert row)
    = {| Supabase.data := Some (d :: rest); Supabase.error := None |}.

(** The hosted table reports no failure. *)
Definition succeeds (E : env) : Prop :=
  forall h q, Supabase.error (remote E h q) = None.

(** [l] is [l'] with some elements left out, the others in their order. *)
Inductive subseq {A : Type} : list A -> list A -> Prop :=
| subseq_nil : subseq [] []
| subseq_skip x l l' : subseq l l' -> subseq l (x :: l')
| subseq_keep x l l' : subseq l l' -> subseq (x :: l) (x :: l').

(** What the callback of [toggleTodo] and of [saveEdit] does to a task. *)
Definition toggled (i : Z) (t t' : todo) : Prop :=
  id t' = id t /\ text t' = text t /\ created_at t' = created_at t
  /\ user_id t' = user_id t
  /\ completed t' = if (id t =? i)%Z then negb (completed t) else completed t.

Definition edited (i : Z) (v : jsstring) (t t' : todo) : Prop :=
  id t' = id t /\ completed t' = completed t /\ created_at t' = created_at t
  /\ user_id t' = user_id t
  /\ text t' = if (id t =? i)%Z then v else text t.

(** What [saveEdit] makes of a task, field by field: a task of another
    id is the same record; a task of id [i] is [{ ...todo, text: v,
    updated_at: s }] with [s] a reading of the clock from tick [n] on. *)
Definition saved (E : env) (n : nat) (i : Z) (v : jsstring) (t t' : todo) : Prop :=
  if (id t =? i)%Z
  then exists k, (n <= k)%nat /\ t' = TodoList.with_text t v (clock E k)
  else t' = t.

(** Two records of one task that agree on everything but [updated_at]. *)
Definition same_but_stamp (t t' : todo) : Prop :=
  id t' = id t /\ text t' = text t /\ completed t' = completed t
  /\ created_at t' = created_at t /\ user_id t' = user_id t.

(** ** Sample data *)

Module Sample.

Definition stamp (n : nat) : jsstring :=
  lit "2024-05-01T10:00:0" ++ [48 + Z.of_nat n]%Z ++ lit ".000Z".

Definition taskA : todo :=
  {| id := 1; text := lit "A"; completed := false;
     created_at := lit "2024-04-30T09:00:00.000Z"; updated_at := None; user_id := None |}.

Definition taskB : todo :=
  {| id := 2; text := lit "B"; completed := true;
     created_at := lit "2024-04-30T08:00:00.000Z"; updated_at := None; user_id := None |}.

(** A table that accepts every request and returns the inserted row
    under a fresh id. *)
Definition table_up : env :=
  {| remote := fun h q =>
       match q with
       | Supabase.Select _ =>
           {| Supabase.data := Some [taskA; taskB]; Supabase.error := None |}
       | Supabase.Insert row =>
           {| Supabase.data := Some
                [ {| id := 100 + Z.of_nat (List.length h);
                     text := Supabase.nr_text row;
                     completed := Supabase.nr_completed row;
                     created_at := Supabase.nr_created_at row;
                     updated_at := Supabase.nr_updated_at row;
                     user_id := Supabase.nr_user_id row |} ];
              Supabase.error := None |}
       | _ => {| Supabase.data := None; Supabase.error := None |}
       end;
     clock := stamp |}.

(** A table that cannot be reached. *)
Definition table_down : env :=
  {| remote := fun _ _ =>
       {| Supabase.data := None; Supabase.error := Some (lit "Failed to fetch") |};
     clock := stamp |}.

(** The authenticated component showing [taskA; taskB] to user 7. *)
Definition signed_in (input draft : jsstring) : TodoList.component :=
  {| TodoList.todos := [taskA; taskB]; TodoList.newTodo := input;
     TodoList.filter := lit "all"; TodoList.loading := false;
     TodoList.error := None; TodoList.editingTodo := Some 1%Z;
     TodoList.editText := draft; TodoList.user := Some 7%Z |}.

(** The single-user component showing [taskA; taskB]. *)
Definition single (input : jsstring) : SingleUser.component :=
  {| SingleUser.todos := [taskA; taskB]; SingleUser.newTodo := input;
     SingleUser.filter := lit "all"; SingleUser.loading := false;
     SingleUser.error := None |}.

End Sample.

(** ** What a request is scoped to

    The value of its [.eq('user_id', ...)] filter, or the [user_id] of
    the row it inserts. *)
Definition scope_of (q : Supabase.request) : option Z :=
  match q with
  | Supabase.Select sc => sc
  | Supabase.Insert row => Supabase.nr_user_id row
  | Supabase.UpdateCompleted _ _ _ sc => sc
  | Supabase.UpdateText _ _ _ sc => sc
  | Supabase.DeleteById _ sc => sc
  | Supabase.DeleteCompleted sc => sc
  end.

(** A string with no white space at its first and at its last position. *)
Definition clean_start (s : jsstring) : Prop :=
  match s with [] => True | c :: _ => isWhiteSpace c = false end.

Definition clean_edges (s : jsstring) : Prop :=
  clean_start s /\ clean_start (rev s).

(** [t] is [s] without the white space at its two ends. *)
Definition stripped (s t : jsstring) : Prop :=
  clean_edges t
  /\ exists a b, s = a ++ t ++ b
                 /\ forallb isWhiteSpace a = true /\ forallb isWhiteSpace b = true.

(** ** Mounting and typing *)

Module Mount.

(** The state of [TodoList.js] at its first render, for the [user] of
    [useAuth]. *)
Definition todoList (u : option Z) : TodoList.component :=
  {| TodoList.todos := []; TodoList.newTodo := []; TodoList.filter := lit "all";
     TodoList.loading := true; TodoList.error := None;
     TodoList.editingTodo := None; TodoList.editText := []; TodoList.user := u |}.

(** The state of the single-user component at its first render. *)
Definition singleUser : SingleUser.component :=
  {| SingleUser.todos := []; SingleUser.newTodo := []; SingleUser.filter := lit "all";
     SingleUser.loading := true; SingleUser.error := None |}.

(** [useEffect(() => { if (user) { fetchTodos(); } }, [user])] *)
Definition todoListEffect (c : TodoList.component) : M TodoList.component unit :=
  match TodoList.user c with
  | Some _ => TodoList.fetchTodos c
  | None => ret tt
  end.

(** [useEffect(() => { fetchTodos(); }, [])] *)
Definition pageEffect (c : SingleUser.component) : M SingleUser.component unit :=
  Page.fetchTodos c.

Definition part000Effect (c : SingleUser.component) : M SingleUser.component unit :=
  Part000.fetchTodos c.

(** [onChange={(e) => setNewTodo(e.target.value)}] *)
Definition typeNewTodo (v : jsstring) (c : TodoList.component) : M TodoList.component unit :=
  TodoList.setNewTodo v.

(** [onChange={(e) => setEditText(e.target.value)}] *)
Definition typeEditText (v : jsstring) (c : TodoList.component) : M TodoList.component unit :=
  TodoList.setEditText v.

(** The same [onChange] of the add form in the single-user copies. *)
Definition typeNewTodoSingle (v : jsstring) (c : SingleUser.component)
  : M SingleUser.component unit :=
  SingleUser.setNewTodo v.

End Mount.

(** ** Identity and navigation

    [useAuth] and [useRouter] are collaborators: what [signIn],
    [signUp] and [signOut] do is not in the repository, so the promise
    of a call is a parameter ([None]: it resolves; [Some e]: it rejects
    with [e]). *)

Module Nav.

Inductive act :=
| Prevent
| SignIn (email password : jsstring)
| SignUp (email password : jsstring)
| SignOut
| Push (path : jsstring).

End Nav.

(** The login page ([Auth], with its [handleSubmit]). *)

Module AuthPage.

Record form := {
  isLogin : bool;
  email : jsstring;
  password : jsstring;
  error : option jsstring;
  loading : bool
}.

(** The state at the first render. *)
Definition initial : form :=
  {| isLogin := true; email := []; password := []; error := None; loading := false |}.

Definition setError (v : option jsstring) (c : form) : form :=
  {| isLogin := isLogin c; email := email c; password := password c;
     error := v; loading := loading c |}.

Definition setLoading (v : bool) (c : form) : form :=
  {| isLogin := isLogin c; email := email c; password := password c;
     error := error c; loading := v |}.

Definition setIsLogin (v : bool) (c : form) : form :=
  {| isLogin := v; email := email c; password := password c;
     error := error c; loading := loading c |}.

(** [handleSubmit], closed over the render [c]; the result is the state
    and the calls made, in order. *)
Definition handleSubmit (auth : Nav.act -> option exn) (c : form) : form * list Nav.act :=
  let s1 := setLoading true (setError None c) in
  let call := if isLogin c
              then Nav.SignIn (email c) (password c)
              else Nav.SignUp (email c) (password c) in
  let '(s2, t2) :=
    match auth call with
    | None => (s1, [Nav.Prevent; call; Nav.Push (lit "/")])
    | Some e => (setError (Some (message e)) s1, [Nav.Prevent; call])
    end in
  (setLoading false s2, t2).

(** [onClick={() => setIsLogin(!isLogin)}] *)
Definition switchMode (c : form) : form := setIsLogin (negb (isLogin c)) c.

End AuthPage.

(** [handleSignOut] of src/components/TodoList.js. *)
Definition handleSignOut (signOut : option exn) (c : TodoList.component)
  : TodoList.component * list Nav.act :=
  match signOut with
  | None => (c, [Nav.SignOut; Nav.Push (lit "/auth")])
  | Some e =>
      ({| TodoList.todos := TodoList.todos c; TodoList.newTodo := TodoList.newTodo c;
          TodoList.filter := TodoList.filter c; TodoList.loading := TodoList.loading c;
          TodoList.error := Some (message e);
          TodoList.editingTodo := TodoList.editingTodo c;
          TodoList.editText := TodoList.editText c; TodoList.user := TodoList.user c |},
       [Nav.SignOut])
  end.

(** [Home]: what it renders ([None] is [null], [Some c] the [TodoList]
    component at its first render) and what its effect does. *)
Definition Home (user : option Z) : option TodoList.component * list Nav.act :=
  match user with
  | None => (None, [Nav.Push (lit "/auth")])
  | Some u => (Some (Mount.todoList (Some u)), [])
  end.

(** ** What is rendered

    The JSX of the component with its styling left out: which blocks are
    rendered and with which values. *)

Module TodoListView.

(** One [motion.div] of the list: the task, the draft when the row is
    the one being edited ([editingTodo === todo.id]), and whether the
    "Updated:" stamp is rendered ([todo.updated_at !== todo.created_at]). *)
Record row := { shown : todo; editor : option jsstring; updatedShown : bool }.

Record main := {
  banner : option jsstring;
  input : jsstring;
  litFilters : list jsstring;
  rows : list row;
  clearButton : bool;
  emptyState : bool
}.

Inductive screen := Spinner | Main (m : main).

Definition renderRow (c : TodoList.component) (t : todo) : row :=
  {| shown := t;
     editor := match TodoList.editingTodo c with
               | Some e => if (e =? id t)%Z then Some (TodoList.editText c) else None
               | None => None
               end;
     updatedShown := match updated_at t with
                     | Some u => negb (str_eq u (created_at t))
                     | None => true
                     end |}.

Definition render (c : TodoList.component) : screen :=
  if TodoList.loading c then Spinner
  else Main
    {| banner := match TodoList.error c with
                 | Some m => if truthy m then Some m else None
                 | None => None
                 end;
       input := TodoList.newTodo c;
       litFilters := List.filter (fun ft => str_eq (TodoList.filter c) ft)
                       [lit "all"; lit "active"; lit "completed"];
       rows := List.map (renderRow c) (TodoList.filteredTodos c);
       clearButton := existsb completed (TodoList.todos c);
       emptyState := (List.length (TodoList.filteredTodos c) =? 0)%nat |}.

End TodoListView.

Module SingleUserView.

Record main := {
  banner : option jsstring;
  input : jsstring;
  litFilters : list jsstring;
  rows : list todo;
  clearButton : bool
}.

Inductive screen := Spinner | Main (m : main).

(** src/app/page.js also renders the empty state; the older copy has no
    such block. *)
Definition render (c : SingleUser.component) : screen :=
  if SingleUser.loading c then Spinner
  else Main
    {| banner := match SingleUser.error c with
                 | Some m => if truthy m then Some m else None
                 | None => None
                 end;
       input := SingleUser.newTodo c;
       litFilters := List.filter (fun ft => str_eq (SingleUser.filter c) ft)
                       [lit "all"; lit "active"; lit "completed"];
       rows := SingleUser.filteredTodos c;
       clearButton := existsb completed (SingleUser.todos c) |}.

Definition pageEmptyState (c : SingleUser.component) : bool :=
  (List.length (Page.filteredTodos c) =? 0)%nat.

End SingleUserView.

(** ** More sample data *)

Module Scenario.

(** A table that accepts everything and returns no row. *)
Definition table_silent : env :=
  {| remote := fun _ _ => {| Supabase.data := None; Supabase.error := None |};
     clock := Sample.stamp |}.

(** Task 1 again, under a second record. *)
Definition taskA' : todo :=
  {| id := 1; text := lit "A again"; completed := true;
     created_at := lit "2024-04-30T07:00:00.000Z"; updated_at := None; user_id := None |}.


Definition with_todos (l : list todo) : TodoList.component :=
  {| TodoList.todos := l; TodoList.newTodo := [];
     TodoList.filter := lit "all"; TodoList.loading := false;
     TodoList.error := Some (lit "Failed to fetch"); TodoList.editingTodo := None;
     TodoList.editText := []; TodoList.user := Some 7%Z |}.

End Scenario.

(** ** Running a handler

    [handler] exposes the control structure of a call; what is left is a
    case analysis on the tests the source makes. *)

Ltac handler :=
  unfold then_after, after, result, call, again, start,
    TodoList.fetchTodos, TodoList.addTodo, TodoList.saveEdit, TodoList.toggleTodo,
    TodoList.deleteTodo, TodoList.clearCompleted, TodoList.clickFilter,
    TodoList.startEditing, TodoList.cancelEdit, TodoList.user_dot_id,
    Page.addTodo, Page.fetchTodos, Page.toggleTodo, Page.deleteTodo, Page.clearCompleted,
    Part000.addTodo, Part000.fetchTodos, Part000.toggleTodo, Part000.deleteTodo,
    Part000.clearCompleted,
    SingleUser.fetchTodos, SingleUser.addTodo, SingleUser.clickFilter,
    try_catch, try_finally, bind, throw_if_error, console_error, preventDefault,
    await, now, emit, throw, ret,
    TodoList.setTodos, TodoList.setNewTodo, TodoList.setError, TodoList.setLoading,
    TodoList.setFilter, TodoList.setEditingTodo, TodoList.setEditText,
    SingleUser.setTodos, SingleUser.setNewTodo, SingleUser.setError,
    SingleUser.setLoading, SingleUser.setFilter, set_state;
  simpl.

(** [map_step lem l' H] runs the [mapM] of the goal by [lem], naming the
    list it returns and what [lem] says of it. *)
Ltac map_step lem l' H :=
  match goal with
  | |- context [mapM ?f ?l ?E ?w] =>
      let n := fresh "n" in
      let Hm := fresh "Hm" in
      destruct (lem l E w) as (l' & n & Hm & H);
      match type of Hm with
      | _ = ?rhs =>
          let Hm' := fresh "Hm" in
          assert (Hm' : mapM f l E w = rhs) by exact Hm;
          rewrite Hm'; clear Hm Hm'; simpl
      end
  end.

(** Case analysis on the answer of the hosted table: [failing H] keeps the
    refusal when [H : fails E]; [surfaced] closes the goals on a refused
    call; [answered] splits on the answer and names the request. *)
Ltac failing H :=
  match goal with
  | |- context [Supabase.error (remote ?E ?h ?q)] =>
      let m := fresh "m" in
      let Hm := fresh "Hm" in
      destruct (Supabase.error (remote E h q)) as [m|] eqn:Hm;
      [simpl | exfalso; exact (H h q Hm)]
  end.

Ltac surfaced := simpl; eexists; repeat split; try reflexivity;
  try (intros Habs; apply (f_equal (@List.length _)) in Habs;
       rewrite ?length_app in Habs; simpl in Habs; lia);
  try discriminate.


(** Closes a goal whose handler logged something though the hypothesis
    says the log is empty, or changed nothing. *)
Ltac quiet := simpl; first [ reflexivity | intros H; discriminate H ].

(** [handler] extended to the effects and the input handlers. *)
Ltac handler' :=
  unfold Mount.todoListEffect, Mount.pageEffect, Mount.part000Effect,
    Mount.typeNewTodo, Mount.typeEditText, Mount.typeNewTodoSingle;
  handler.

(** * Properties *)

Unset Implicit Arguments.

(** ** Trimming *)

Lemma trimStart_nil_iff (s : jsstring) :
  trimStart s = [] <-> forallb isWhiteSpace s = true.
Proof.
  induction s as [|c r IH]; simpl.
  - tauto.
  - destruct (isWhiteSpace c); simpl.
    + exact IH.
    + split; discriminate.
Qed.

Lemma trim_nil_iff (s : jsstring) :
  trim s = [] <-> forallb isWhiteSpace s = true.
Proof.
  unfold trim, trimEnd. split.
  - intros H. apply trimStart_nil_iff.
    destruct (trimStart s) as [|c r] eqn:Hs; [reflexivity|].
    apply (f_equal (@rev Z)) in H. rewrite rev_involutive in H. simpl in H.
    apply trimStart_nil_iff in H. rewrite forallb_forall in H.
    assert (Hin : In c (rev (c :: r))) by (apply in_rev; rewrite rev_involutive; left; reflexivity).
    apply H in Hin.
    simpl in Hs. destruct s as [|x s']; [discriminate|].
    simpl in Hs. destruct (isWhiteSpace x) eqn:Hx.
    + exfalso. clear - Hs Hin.
      induction s' as [|y s' IH]; simpl in Hs; [discriminate|].
      destruct (isWhiteSpace y) eqn:Hy; [auto|].
      injection Hs as -> _. congruence.
    + injection Hs as -> _. congruence.
  - intros H. apply trimStart_nil_iff in H. rewrite H. reflexivity.
Qed.

Example trim_blank : trim (lit "  ") = [].
Proof. reflexivity. Qed.

Example trim_padded : trim (lit "  Buy milk ") = lit "Buy milk".
Proof. reflexivity. Qed.

Example trim_nbsp : trim [160; 9; 8232]%Z = [].
Proof. reflexivity. Qed.

Lemma truthy_false (s : jsstring) : truthy s = false <-> s = [].
Proof. destruct s; simpl; split; congruence. Qed.

(** ** Validation of a new task *)

(** C1.  When the trimmed input is empty, [addTodo] sends nothing to the
    hosted table, sets the error state to the validation message and
    leaves the list of tasks as it was; in each of the three copies. *)
Theorem addTodo_blank_rejected (E : env) (s : jsstring) :
  trim s = [] ->
  (forall c, TodoList.newTodo c = s ->
     requests (trace (after E TodoList.addTodo c)) = []
     /\ TodoList.error (comp (after E TodoList.addTodo c))
        = Some (lit "Todo text cannot be empty")
     /\ TodoList.todos (comp (after E TodoList.addTodo c)) = TodoList.todos c)
  /\ (forall c, SingleUser.newTodo c = s ->
     requests (trace (after E Page.addTodo c)) = []
     /\ SingleUser.error (comp (after E Page.addTodo c))
        = Some (lit "Todo text cannot be empty")
     /\ SingleUser.todos (comp (after E Page.addTodo c)) = SingleUser.todos c)
  /\ (forall c, SingleUser.newTodo c = s ->
     requests (trace (after E Part000.addTodo c)) = []
     /\ SingleUser.error (comp (after E Part000.addTodo c))
        = Some (lit "Todo text cannot be empty")
     /\ SingleUser.todos (comp (after E Part000.addTodo c)) = SingleUser.todos c).
Proof.
  intros Hs. split; [|split]; intros c Hc; handler; rewrite Hc, Hs; simpl;
    repeat split; reflexivity.
Qed.

Lemma addTodo_blank_rejected_witness :
  trim (lit "   ") = []
  /\ requests (trace (after Sample.table_up TodoList.addTodo
                        (Sample.signed_in (lit "   ") []))) = []
  /\ TodoList.error (comp (after Sample.table_up TodoList.addTodo
                             (Sample.signed_in (lit "   ") [])))
     = Some (lit "Todo text cannot be empty")
  /\ TodoList.todos (comp (after Sample.table_up TodoList.addTodo
                             (Sample.signed_in (lit "   ") [])))
     = [Sample.taskA; Sample.taskB].
Proof.
  split; [reflexivity|].
  exact (proj1 (addTodo_blank_rejected Sample.table_up (lit "   ") eq_refl)
               (Sample.signed_in (lit "   ") []) eq_refl).
Defined.

(** ** Mapping with a callback that reads the clock *)

Section MapM.
Context {S A B : Type}.
Variable f : A -> M S B.
Variable R : A -> B -> Prop.

(** The callback returns, touches neither the state nor the trace, and
    relates its result to its argument by [R]. *)
Hypothesis f_quiet : forall x E w, exists y n,
  f x E w = (Ret y, {| comp := comp w; trace := trace w; tick := n |}) /\ R x y.

Lemma mapM_quiet (l : list A) (E : env) (w : world S) :
  exists l' n,
    mapM f l E w = (Ret l', {| comp := comp w; trace := trace w; tick := n |})
    /\ Forall2 R l l'.
Proof.
  revert w. induction l as [|x l IH]; intros w; simpl.
  - exists [], (tick w). destruct w; simpl. split; [reflexivity | constructor].
  - unfold bind. destruct (f_quiet x E w) as (y & n & -> & Hy).
    destruct (IH {| comp := comp w; trace := trace w; tick := n |}) as (l' & n' & -> & Hl).
    simpl. exists (y :: l'), n'. split; [reflexivity | constructor; assumption].
Qed.

End MapM.

Lemma toggle_map (i : Z) (l : list todo) (E : env) (w : world TodoList.component) :
  exists l' n,
    mapM (fun t =>
            if (id t =? i)%Z
            then t2 <- now ;; ret (TodoList.with_completed t (negb (completed t)) t2)
            else ret t) l E w
    = (Ret l', {| comp := comp w; trace := trace w; tick := n |})
    /\ Forall2 (toggled i) l l'.
Proof.
  apply mapM_quiet. intros x E' w'. unfold toggled.
  destruct (id x =? i)%Z eqn:Hx; unfold bind, now, ret; simpl.
  - eexists _, _. split; [reflexivity|]. simpl. repeat split.
  - exists x, (tick w'). destruct w'; simpl. repeat split.
Qed.

Lemma edit_map (i : Z) (v : jsstring) (l : list todo) (E : env)
    (w : world TodoList.component) :
  exists l' n,
    mapM (fun t =>
            if (id t =? i)%Z
            then t2 <- now ;; ret (TodoList.with_text t v t2)
            else ret t) l E w
    = (Ret l', {| comp := comp w; trace := trace w; tick := n |})
    /\ Forall2 (edited i v) l l'.
Proof.
  apply mapM_quiet. intros x E' w'. unfold edited.
  destruct (id x =? i)%Z eqn:Hx; unfold bind, now, ret; simpl.
  - eexists _, _. split; [reflexivity|]. simpl. repeat split.
  - exists x, (tick w'). destruct w'; simpl. repeat split.
Qed.

(** ** Saving an edit *)

(** [saveEdit] has no test on the draft: signed in, it always sends the
    update, with the trimmed draft as the new text. *)
Lemma saveEdit_always_sends (E : env) (i u : Z) (c : TodoList.component) :
  TodoList.user c = Some u ->
  requests (trace (after E (TodoList.saveEdit i) c))
  = [Supabase.UpdateText i (trim (TodoList.editText c)) (Some (clock E 0)) (Some u)].
Proof.
  intros Hu. handler. rewrite Hu. simpl.
  destruct (Supabase.error _); simpl; [reflexivity|].
  map_step (edit_map i (trim (TodoList.editText c))) l' Hl'.
  reflexivity.
Qed.

(** C2 (the code departs from it).  A draft of two spaces trims to the
    empty string, yet [saveEdit] sends the update to the hosted table
    and, on its success, replaces the text of task 1 by the empty
    string: nothing validates the draft, where [addTodo] validates its
    input. *)
Theorem saveEdit_blank_is_persisted :
  trim (lit "  ") = []
  /\ requests (trace (after Sample.table_up (TodoList.saveEdit 1)
                        (Sample.signed_in [] (lit "  "))))
     = [Supabase.UpdateText 1 [] (Some (Sample.stamp 0)) (Some 7%Z)]
  /\ List.map text (TodoList.todos (comp (after Sample.table_up (TodoList.saveEdit 1)
                                            (Sample.signed_in [] (lit "  ")))))
     = [[]; lit "B"]
  /\ TodoList.error (comp (after Sample.table_up (TodoList.saveEdit 1)
                             (Sample.signed_in [] (lit "  ")))) = None.
Proof. repeat split. Qed.

(** ** Remote failures *)

(** In the authenticated component every operation that reached the
    hosted table and was refused ends normally, with the failure logged
    and the error state set to a message. *)
Lemma todoList_failure_surfaced (E : env) (a : Op.authenticated) (c : TodoList.component) :
  fails E ->
  requests (trace (after E (Op.todoList a) c)) <> [] ->
  exists m,
    TodoList.error (comp (after E (Op.todoList a) c)) = Some m
    /\ logged (trace (after E (Op.todoList a) c)) <> []
    /\ result E (Op.todoList a) c = Ret tt.
Proof.
  intros Hf. destruct a; simpl Op.todoList; handler.
  - destruct (TodoList.user c); simpl; [failing Hf|]; surfaced.
  - destruct (truthy (trim (TodoList.newTodo c))); simpl; [|intros H; now elim H].
    destruct (TodoList.user c); simpl; [failing Hf|]; surfaced.
  - destruct (List.find _ _); simpl; [|intros H; now elim H].
    destruct (TodoList.user c); simpl; [failing Hf|]; surfaced.
  - destruct (TodoList.user c); simpl; [failing Hf|]; surfaced.
  - destruct (TodoList.user c); simpl; [failing Hf|]; surfaced.
  - destruct (TodoList.user c); simpl; [failing Hf|]; surfaced.
Qed.

(** The same in src/app/page.js. *)
Lemma page_failure_surfaced (E : env) (a : Op.single_user) (c : SingleUser.component) :
  fails E ->
  requests (trace (after E (Op.page a) c)) <> [] ->
  exists m,
    SingleUser.error (comp (after E (Op.page a) c)) = Some m
    /\ logged (trace (after E (Op.page a) c)) <> []
    /\ result E (Op.page a) c = Ret tt.
Proof.
  intros Hf. destruct a; simpl Op.page; handler.
  - failing Hf; surfaced.
  - destruct (truthy (trim (SingleUser.newTodo c))); simpl; [|intros H; now elim H].
    failing Hf; surfaced.
  - destruct (List.find _ _); simpl; [|intros H; now elim H].
    failing Hf; surfaced.
  - failing Hf; surfaced.
  - failing Hf; surfaced.
Qed.

(** C3 (the code departs from it).  In the older single-user copy a
    refused toggle, delete or clear is caught and logged, but the error
    state stays [null]: no message reaches the user, where [fetchTodos]
    and [addTodo] of the same file, and the three handlers of the two
    other copies, set it. *)
Theorem part000_failure_not_shown :
  (SingleUser.error (comp (after Sample.table_down (Part000.deleteTodo 1)
                             (Sample.single []))) = None
   /\ logged (trace (after Sample.table_down (Part000.deleteTodo 1) (Sample.single [])))
      = [(lit "Error deleting todo:", LogMsg (lit "Failed to fetch"))])
  /\ (SingleUser.error (comp (after Sample.table_down (Part000.toggleTodo 1)
                                (Sample.single []))) = None
      /\ logged (trace (after Sample.table_down (Part000.toggleTodo 1) (Sample.single [])))
         = [(lit "Error updating todo:", LogMsg (lit "Failed to fetch"))])
  /\ (SingleUser.error (comp (after Sample.table_down Part000.clearCompleted
                                (Sample.single []))) = None
      /\ logged (trace (after Sample.table_down Part000.clearCompleted (Sample.single [])))
         = [(lit "Error clearing completed todos:", LogMsg (lit "Failed to fetch"))])
  /\ SingleUser.error (comp (after Sample.table_down (Page.deleteTodo 1)
                               (Sample.single []))) = Some (lit "Failed to fetch")
  /\ SingleUser.error (comp (after Sample.table_down Part000.fetchTodos
                               (Sample.single []))) = Some (lit "Failed to fetch").
Proof. repeat split. Qed.

(** The three handlers of the older copy never write the error state. *)
Lemma part000_error_untouched (E : env) (a : Op.single_user) (c : SingleUser.component) :
  a <> Op.SLoad -> a <> Op.SAdd ->
  SingleUser.error (comp (after E (Op.part000 a) c)) = SingleUser.error c.
Proof.
  intros H1 H2. destruct a; try congruence; simpl Op.part000; handler.
  - destruct (List.find _ _); simpl; [|reflexivity].
    destruct (Supabase.error _); reflexivity.
  - destruct (Supabase.error _); reflexivity.
  - destruct (Supabase.error _); reflexivity.
Qed.

(** With a hosted table that refuses everything, no operation changes
    the list of tasks, in each of the three copies. *)
Theorem failure_keeps_list (E : env) :
  fails E ->
  (forall a c, TodoList.todos (comp (after E (Op.todoList a) c)) = TodoList.todos c)
  /\ (forall a c, SingleUser.todos (comp (after E (Op.page a) c)) = SingleUser.todos c)
  /\ (forall a c, SingleUser.todos (comp (after E (Op.part000 a) c)) = SingleUser.todos c).
Proof.
  intros Hf. split; [|split]; intros a c.
  - destruct a; simpl Op.todoList; handler.
    + destruct (TodoList.user c); simpl; [failing Hf|]; reflexivity.
    + destruct (truthy (trim (TodoList.newTodo c))); simpl; [|reflexivity].
      destruct (TodoList.user c); simpl; [failing Hf|]; reflexivity.
    + destruct (List.find _ _); simpl; [|reflexivity].
      destruct (TodoList.user c); simpl; [failing Hf|]; reflexivity.
    + destruct (TodoList.user c); simpl; [failing Hf|]; reflexivity.
    + destruct (TodoList.user c); simpl; [failing Hf|]; reflexivity.
    + destruct (TodoList.user c); simpl; [failing Hf|]; reflexivity.
  - destruct a; simpl Op.page; handler.
    + failing Hf; reflexivity.
    + destruct (truthy (trim (SingleUser.newTodo c))); simpl; [|reflexivity].
      failing Hf; reflexivity.
    + destruct (List.find _ _); simpl; [|reflexivity].
      failing Hf; reflexivity.
    + failing Hf; reflexivity.
    + failing Hf; reflexivity.
  - destruct a; simpl Op.part000; handler.
    + failing Hf; reflexivity.
    + destruct (truthy (trim (SingleUser.newTodo c))); simpl; [|reflexivity].
      failing Hf; reflexivity.
    + destruct (List.find _ _); simpl; [|reflexivity].
      failing Hf; reflexivity.
    + failing Hf; reflexivity.
    + failing Hf; reflexivity.
Qed.

Lemma table_down_fails : fails Sample.table_down.
Proof. intros h q. simpl. discriminate. Qed.

Lemma failure_keeps_list_witness :
  fails Sample.table_down
  /\ TodoList.todos (comp (after Sample.table_down (TodoList.deleteTodo 1)
                             (Sample.signed_in [] [])))
     = [Sample.taskA; Sample.taskB]
  /\ SingleUser.todos (comp (after Sample.table_down (Part000.toggleTodo 2)
                               (Sample.single [])))
     = [Sample.taskA; Sample.taskB].
Proof.
  split; [exact table_down_fails|].
  split.
  - exact (proj1 (failure_keeps_list Sample.table_down table_down_fails)
                 (Op.Delete 1) (Sample.signed_in [] [])).
  - exact (proj2 (proj2 (failure_keeps_list Sample.table_down table_down_fails))
                 (Op.SToggle 2) (Sample.single [])).
Defined.

(** ** Adding a task *)

(** C5.  When the trimmed input is not empty (and, in the authenticated
    component, user [u] is signed in), [addTodo] sends one insert whose
    row carries the trimmed text and [completed = false]; when the
    hosted table answers with the row [d], the list becomes [d] followed
    by the former list, and [d], being the inserted row, has the trimmed
    text and is not completed. *)
Theorem addTodo_prepends (E : env) :
  (forall c u,
     trim (TodoList.newTodo c) <> [] -> TodoList.user c = Some u ->
     exists row,
       requests (trace (after E TodoList.addTodo c)) = [Supabase.Insert row]
       /\ Supabase.nr_text row = trim (TodoList.newTodo c)
       /\ Supabase.nr_completed row = false
       /\ forall d rest,
            remote E [] (Supabase.Insert row)
            = {| Supabase.data := Some (d :: rest); Supabase.error := None |} ->
            TodoList.todos (comp (after E TodoList.addTodo c)) = d :: TodoList.todos c
            /\ (Supabase.returns_inserted row d ->
                text d = trim (TodoList.newTodo c) /\ completed d = false))
  /\ (forall c,
     trim (SingleUser.newTodo c) <> [] ->
     exists row,
       requests (trace (after E Page.addTodo c)) = [Supabase.Insert row]
       /\ requests (trace (after E Part000.addTodo c)) = [Supabase.Insert row]
       /\ Supabase.nr_text row = trim (SingleUser.newTodo c)
       /\ Supabase.nr_completed row = false
       /\ forall d rest,
            remote E [] (Supabase.Insert row)
            = {| Supabase.data := Some (d :: rest); Supabase.error := None |} ->
            SingleUser.todos (comp (after E Page.addTodo c)) = d :: SingleUser.todos c
            /\ SingleUser.todos (comp (after E Part000.addTodo c)) = d :: SingleUser.todos c
            /\ (Supabase.returns_inserted row d ->
                text d = trim (SingleUser.newTodo c) /\ completed d = false)).
Proof.
  split.
  - intros c u Hs Hu.
    assert (Ht : truthy (trim (TodoList.newTodo c)) = true)
      by (destruct (trim (TodoList.newTodo c)); [congruence | reflexivity]).
    exists {| Supabase.nr_text := trim (TodoList.newTodo c);
              Supabase.nr_completed := false;
              Supabase.nr_user_id := Some u;
              Supabase.nr_created_at := clock E 0;
              Supabase.nr_updated_at := Some (clock E 1) |}.
    handler. rewrite Hu, Ht. simpl.
    split; [|split; [|split]].
    + destruct (Supabase.error _); simpl; [reflexivity|].
      destruct (Supabase.data _) as [[|d0 r]|]; reflexivity.
    + reflexivity.
    + reflexivity.
    + intros d rest Hr. rewrite Hr. simpl. split; [reflexivity|].
      intros (H1 & H2 & _). simpl in H1, H2. split; assumption.
  - intros c Hs.
    assert (Ht : truthy (trim (SingleUser.newTodo c)) = true)
      by (destruct (trim (SingleUser.newTodo c)); [congruence | reflexivity]).
    exists {| Supabase.nr_text := trim (SingleUser.newTodo c);
              Supabase.nr_completed := false;
              Supabase.nr_user_id := None;
              Supabase.nr_created_at := clock E 0;
              Supabase.nr_updated_at := None |}.
    handler. rewrite Ht. simpl.
    split; [|split; [|split; [|split]]].
    + destruct (Supabase.error _); simpl; [reflexivity|].
      destruct (Supabase.data _) as [[|d0 r]|]; reflexivity.
    + destruct (Supabase.error _); simpl; [reflexivity|].
      destruct (Supabase.data _) as [[|d0 r]|]; reflexivity.
    + reflexivity.
    + reflexivity.
    + intros d rest Hr. rewrite Hr. simpl. split; [reflexivity|split; [reflexivity|]].
      intros (H1 & H2 & _). simpl in H1, H2. split; assumption.
Qed.

Lemma addTodo_prepends_witness :
  trim (TodoList.newTodo (Sample.signed_in (lit " Buy milk ") [])) <> []
  /\ TodoList.user (Sample.signed_in (lit " Buy milk ") []) = Some 7%Z
  /\ exists d,
       TodoList.todos (comp (after Sample.table_up TodoList.addTodo
                               (Sample.signed_in (lit " Buy milk ") [])))
       = [d; Sample.taskA; Sample.taskB]
       /\ text d = lit "Buy milk" /\ completed d = false.
Proof.
  assert (Hs : trim (TodoList.newTodo (Sample.signed_in (lit " Buy milk ") [])) <> [])
    by (vm_compute; discriminate).
  split; [exact Hs|]. split; [reflexivity|].
  destruct (proj1 (addTodo_prepends Sample.table_up)
              (Sample.signed_in (lit " Buy milk ") []) 7%Z Hs eq_refl)
    as (row & Hreq & Htext & Hflag & Hlist).
  vm_compute in Hreq. injection Hreq as <-.
  destruct (Hlist _ [] eq_refl) as (Hl & Hd).
  eexists. split; [exact Hl|].
  apply Hd. repeat split.
Defined.

(** ** Toggling *)

Lemma find_present (i : Z) (l : list todo) :
  In i (List.map id l) ->
  exists t, List.find (fun t => (id t =? i)%Z) l = Some t /\ id t = i.
Proof.
  induction l as [|x l IH]; simpl; [tauto|].
  intros [H|H].
  - exists x. rewrite H, Z.eqb_refl. split; reflexivity.
  - destruct (id x =? i)%Z eqn:Hx.
    + exists x. split; [reflexivity | now apply Z.eqb_eq].
    + exact (IH H).
Qed.

Lemma find_absent (i : Z) (l : list todo) :
  ~ In i (List.map id l) -> List.find (fun t => (id t =? i)%Z) l = None.
Proof.
  induction l as [|x l IH]; simpl; [reflexivity|].
  intros H. destruct (id x =? i)%Z eqn:Hx.
  - apply Z.eqb_eq in Hx. tauto.
  - apply IH. tauto.
Qed.

(** The callback of the single-user [toggleTodo], applied twice. *)
Lemma flip_twice (i : Z) (l : list todo) :
  List.map (fun t => if (id t =? i)%Z
                     then SingleUser.with_completed t (negb (completed t)) else t)
    (List.map (fun t => if (id t =? i)%Z
                        then SingleUser.with_completed t (negb (completed t)) else t) l)
  = l.
Proof.
  induction l as [|x l IH]; simpl; [reflexivity|].
  rewrite IH. f_equal.
  destruct (id x =? i)%Z eqn:Hx; simpl; rewrite Hx; [|reflexivity].
  destruct x; unfold SingleUser.with_completed; simpl.
  rewrite negb_involutive. reflexivity.
Qed.

Lemma flip_ids (i : Z) (l : list todo) :
  List.map id
    (List.map (fun t => if (id t =? i)%Z
                        then SingleUser.with_completed t (negb (completed t)) else t) l)
  = List.map id l.
Proof.
  rewrite map_map. apply map_ext. intros t. destruct (id t =? i)%Z; reflexivity.
Qed.

Lemma toggled_ids (i : Z) (l l' : list todo) :
  Forall2 (toggled i) l l' -> List.map id l' = List.map id l.
Proof.
  induction 1 as [|x y l l' (H & _) _ IH]; simpl; [reflexivity|].
  rewrite H, IH. reflexivity.
Qed.

Lemma toggled_twice (i : Z) (l l1 l2 : list todo) :
  Forall2 (toggled i) l l1 -> Forall2 (toggled i) l1 l2 ->
  Forall2 same_but_stamp l l2.
Proof.
  intros H. revert l2. induction H as [|x y l l1 Hxy _ IH]; intros l2 H2.
  - inversion H2. constructor.
  - inversion H2 as [|y' z l1' l2' Hyz Hrest]; subst. constructor; [|apply IH; assumption].
    destruct Hxy as (a1 & a2 & a3 & a4 & a5), Hyz as (b1 & b2 & b3 & b4 & b5).
    unfold same_but_stamp. rewrite b1, b2, b3, b4, b5, a1, a2, a3, a4, a5.
    repeat split. destruct (id x =? i)%Z; [apply negb_involutive | reflexivity].
Qed.

Lemma same_but_stamp_refl (l : list todo) : Forall2 same_but_stamp l l.
Proof. induction l; constructor; [repeat split | assumption]. Qed.

(** Two toggles of the same task in the authenticated component, with a
    table that accepts them: every task is back to its record, up to
    [updated_at]. *)
Lemma todoList_toggle_twice (E : env) (i : Z) (c : TodoList.component) :
  succeeds E ->
  Forall2 same_but_stamp (TodoList.todos c)
    (TodoList.todos (comp (then_after E (TodoList.toggleTodo i)
                             (after E (TodoList.toggleTodo i) c)))).
Proof.
  intros Hok. handler.
  destruct (in_dec Z.eq_dec i (List.map id (TodoList.todos c))) as [Hin|Hout].
  - destruct (find_present i _ Hin) as (t & -> & Ht). simpl.
    destruct (TodoList.user c) as [u|] eqn:Hu; simpl.
    + rewrite Hok. simpl.
      map_step (toggle_map i) l1 H1. rewrite Hu.
      assert (Hin1 : In i (List.map id l1)) by (rewrite (toggled_ids _ _ _ H1); exact Hin).
      destruct (find_present i _ Hin1) as (t1 & -> & Ht1). simpl.
      rewrite Hok. simpl.
      map_step (toggle_map i) l2 H2.
      exact (toggled_twice _ _ _ _ H1 H2).
    + destruct (find_present i _ Hin) as (t' & -> & _). simpl. rewrite Hu. simpl.
      apply same_but_stamp_refl.
  - rewrite (find_absent i _ Hout). simpl. rewrite (find_absent i _ Hout). simpl.
    apply same_but_stamp_refl.
Qed.

(** One accepted toggle flips the flag of the tasks with that id and of
    no other. *)
Lemma todoList_toggle_once (E : env) (i u : Z) (c : TodoList.component) :
  succeeds E -> TodoList.user c = Some u -> In i (List.map id (TodoList.todos c)) ->
  Forall2 (toggled i) (TodoList.todos c)
    (TodoList.todos (comp (after E (TodoList.toggleTodo i) c))).
Proof.
  intros Hok Hu Hin. handler.
  destruct (find_present i _ Hin) as (t & -> & Ht). simpl.
  rewrite Hu. simpl. rewrite Hok. simpl.
  map_step (toggle_map i) l1 H1. exact H1.
Qed.

Lemma page_toggle_once (E : env) (i : Z) (c : SingleUser.component) :
  succeeds E -> In i (List.map id (SingleUser.todos c)) ->
  SingleUser.todos (comp (after E (Page.toggleTodo i) c))
  = List.map (fun t => if (id t =? i)%Z
                       then SingleUser.with_completed t (negb (completed t)) else t)
      (SingleUser.todos c).
Proof.
  intros Hok Hin. handler.
  destruct (find_present i _ Hin) as (t & -> & Ht). simpl.
  rewrite Hok. reflexivity.
Qed.

Lemma part000_toggle_once (E : env) (i : Z) (c : SingleUser.component) :
  succeeds E -> In i (List.map id (SingleUser.todos c)) ->
  SingleUser.todos (comp (after E (Part000.toggleTodo i) c))
  = List.map (fun t => if (id t =? i)%Z
                       then SingleUser.with_completed t (negb (completed t)) else t)
      (SingleUser.todos c).
Proof.
  intros Hok Hin. handler.
  destruct (find_present i _ Hin) as (t & -> & Ht). simpl.
  rewrite Hok. reflexivity.
Qed.

(** C6.  With pairwise distinct ids and [i] the id of a task of the
    list, two toggles of [i] that the hosted table accepts give back a
    list where every task, the toggled one included, has the completed
    flag it had: in the single-user copies the list itself, in the
    authenticated component the same records up to [updated_at]. *)
Theorem toggle_twice_restores (E : env) (i : Z) :
  succeeds E ->
  (forall c,
     NoDup (List.map id (TodoList.todos c)) -> In i (List.map id (TodoList.todos c)) ->
     Forall2 same_but_stamp (TodoList.todos c)
       (TodoList.todos (comp (then_after E (TodoList.toggleTodo i)
                                (after E (TodoList.toggleTodo i) c)))))
  /\ (forall c,
     NoDup (List.map id (SingleUser.todos c)) -> In i (List.map id (SingleUser.todos c)) ->
     SingleUser.todos (comp (then_after E (Page.toggleTodo i)
                               (after E (Page.toggleTodo i) c)))
     = SingleUser.todos c)
  /\ (forall c,
     NoDup (List.map id (SingleUser.todos c)) -> In i (List.map id (SingleUser.todos c)) ->
     SingleUser.todos (comp (then_after E (Part000.toggleTodo i)
                               (after E (Part000.toggleTodo i) c)))
     = SingleUser.todos c).
Proof.
  intros Hok. split; [|split]; intros c _ Hin.
  - apply todoList_toggle_twice. exact Hok.
  - handler. destruct (find_present i _ Hin) as (t & -> & Ht). simpl.
    rewrite Hok. simpl.
    assert (Hin1 : In i (List.map id
              (List.map (fun t => if (id t =? i)%Z
                                  then SingleUser.with_completed t (negb (completed t))
                                  else t) (SingleUser.todos c))))
      by (rewrite flip_ids; exact Hin).
    destruct (find_present i _ Hin1) as (t1 & -> & Ht1). simpl.
    rewrite Hok. simpl. apply flip_twice.
  - handler. destruct (find_present i _ Hin) as (t & -> & Ht). simpl.
    rewrite Hok. simpl.
    assert (Hin1 : In i (List.map id
              (List.map (fun t => if (id t =? i)%Z
                                  then SingleUser.with_completed t (negb (completed t))
                                  else t) (SingleUser.todos c))))
      by (rewrite flip_ids; exact Hin).
    destruct (find_present i _ Hin1) as (t1 & -> & Ht1). simpl.
    rewrite Hok. simpl. apply flip_twice.
Qed.

Lemma table_up_succeeds : succeeds Sample.table_up.
Proof. intros h q. destruct q; reflexivity. Qed.

Lemma toggle_twice_restores_witness :
  succeeds Sample.table_up
  /\ NoDup (List.map id (SingleUser.todos (Sample.single [])))
  /\ In 2%Z (List.map id (SingleUser.todos (Sample.single [])))
  /\ List.map completed
       (SingleUser.todos (comp (after Sample.table_up (Page.toggleTodo 2)
                                  (Sample.single [])))) = [false; false]
  /\ SingleUser.todos (comp (then_after Sample.table_up (Page.toggleTodo 2)
                               (after Sample.table_up (Page.toggleTodo 2)
                                  (Sample.single []))))
     = SingleUser.todos (Sample.single []).
Proof.
  assert (Hd : NoDup (List.map id (SingleUser.todos (Sample.single [])))).
  { simpl. constructor; [simpl; intros [H|[]]; discriminate|].
    constructor; [intros []|constructor]. }
  assert (Hin : In 2%Z (List.map id (SingleUser.todos (Sample.single []))))
    by (simpl; right; left; reflexivity).
  split; [exact table_up_succeeds|]. split; [exact Hd|]. split; [exact Hin|].
  split; [reflexivity|].
  exact (proj1 (proj2 (toggle_twice_restores Sample.table_up 2 table_up_succeeds))
               (Sample.single []) Hd Hin).
Defined.

(** ** Deleting *)

Lemma filter_out_absent (i : Z) (l : list todo) :
  ~ In i (List.map id l) -> List.filter (fun t => negb (id t =? i)%Z) l = l.
Proof.
  induction l as [|x l IH]; simpl; [reflexivity|].
  intros H. destruct (id x =? i)%Z eqn:Hx; simpl.
  - apply Z.eqb_eq in Hx. tauto.
  - rewrite IH by tauto. reflexivity.
Qed.

(** With distinct ids, filtering out id [i] takes out one element. *)
Lemma filter_out_unique (i : Z) (l : list todo) :
  NoDup (List.map id l) -> In i (List.map id l) ->
  exists l1 t l2,
    l = l1 ++ t :: l2 /\ id t = i
    /\ List.filter (fun t => negb (id t =? i)%Z) l = l1 ++ l2
    /\ ~ In i (List.map id (l1 ++ l2)).
Proof.
  induction l as [|x l IH]; simpl; [tauto|].
  intros Hd Hin. inversion Hd as [|y ys Hx Hd']; subst.
  destruct (Z.eq_dec (id x) i) as [Heq|Hne].
  - exists [], x, l. simpl. rewrite (proj2 (Z.eqb_eq _ _) Heq). simpl.
    rewrite Heq in Hx. rewrite (filter_out_absent i l Hx). auto.
  - destruct Hin as [Hin|Hin]; [contradiction|].
    destruct (IH Hd' Hin) as (l1 & t & l2 & Hl & Ht & Hf & Hout).
    exists (x :: l1), t, l2. simpl.
    rewrite (proj2 (Z.eqb_neq _ _) Hne). simpl. rewrite Hf, Hl.
    repeat split; try assumption. intros [H|H]; [contradiction | exact (Hout H)].
Qed.

(** C7.  With pairwise distinct ids and [i] the id of a task of the
    list, a delete of [i] that the hosted table accepts takes exactly
    that one task out: the list was [l1 ++ t :: l2] with [t] the task of
    id [i], and it becomes [l1 ++ l2], where no task has id [i]. *)
Theorem deleteTodo_removes_one (E : env) (i : Z) :
  (forall c u,
     TodoList.user c = Some u ->
     Supabase.error (remote E [] (Supabase.DeleteById i (Some u))) = None ->
     NoDup (List.map id (TodoList.todos c)) -> In i (List.map id (TodoList.todos c)) ->
     exists l1 t l2,
       TodoList.todos c = l1 ++ t :: l2 /\ id t = i
       /\ TodoList.todos (comp (after E (TodoList.deleteTodo i) c)) = l1 ++ l2
       /\ ~ In i (List.map id (l1 ++ l2)))
  /\ (forall c,
     Supabase.error (remote E [] (Supabase.DeleteById i None)) = None ->
     NoDup (List.map id (SingleUser.todos c)) -> In i (List.map id (SingleUser.todos c)) ->
     exists l1 t l2,
       SingleUser.todos c = l1 ++ t :: l2 /\ id t = i
       /\ SingleUser.todos (comp (after E (Page.deleteTodo i) c)) = l1 ++ l2
       /\ SingleUser.todos (comp (after E (Part000.deleteTodo i) c)) = l1 ++ l2
       /\ ~ In i (List.map id (l1 ++ l2))).
Proof.
  split.
  - intros c u Hu Hok Hd Hin.
    destruct (filter_out_unique i _ Hd Hin) as (l1 & t & l2 & Hl & Ht & Hf & Hout).
    exists l1, t, l2. handler. rewrite Hu. simpl. rewrite Hok. simpl.
    repeat split; assumption.
  - intros c Hok Hd Hin.
    destruct (filter_out_unique i _ Hd Hin) as (l1 & t & l2 & Hl & Ht & Hf & Hout).
    exists l1, t, l2. handler. rewrite Hok. simpl.
    repeat split; assumption.
Qed.

Lemma sample_ids_distinct : NoDup (List.map id [Sample.taskA; Sample.taskB]).
Proof.
  simpl. constructor; [simpl; intros [H|[]]; discriminate|].
  constructor; [intros []|constructor].
Qed.

Lemma deleteTodo_removes_one_witness :
  TodoList.user (Sample.signed_in [] []) = Some 7%Z
  /\ Supabase.error (remote Sample.table_up [] (Supabase.DeleteById 1 (Some 7%Z))) = None
  /\ NoDup (List.map id (TodoList.todos (Sample.signed_in [] [])))
  /\ In 1%Z (List.map id (TodoList.todos (Sample.signed_in [] [])))
  /\ TodoList.todos (comp (after Sample.table_up (TodoList.deleteTodo 1)
                             (Sample.signed_in [] []))) = [Sample.taskB]
  /\ exists l1 t l2,
       TodoList.todos (Sample.signed_in [] []) = l1 ++ t :: l2 /\ id t = 1%Z
       /\ TodoList.todos (comp (after Sample.table_up (TodoList.deleteTodo 1)
                                  (Sample.signed_in [] []))) = l1 ++ l2
       /\ ~ In 1%Z (List.map id (l1 ++ l2)).
Proof.
  split; [reflexivity|]. split; [reflexivity|]. split; [exact sample_ids_distinct|].
  split; [simpl; left; reflexivity|]. split; [reflexivity|].
  apply (proj1 (deleteTodo_removes_one Sample.table_up 1) (Sample.signed_in [] []) 7%Z).
  - reflexivity.
  - reflexivity.
  - exact sample_ids_distinct.
  - simpl. left. reflexivity.
Defined.

(** ** Clearing the completed tasks *)

Lemma filter_subseq {A : Type} (p : A -> bool) (l : list A) :
  subseq (List.filter p l) l.
Proof.
  induction l as [|x l IH]; simpl.
  - constructor.
  - destruct (p x); constructor; assumption.
Qed.

Lemma keep_active_spec (l : list todo) :
  subseq (List.filter (fun t => negb (completed t)) l) l
  /\ Forall (fun t => completed t = false) (List.filter (fun t => negb (completed t)) l)
  /\ (forall t, In t (List.filter (fun t => negb (completed t)) l)
                <-> In t l /\ completed t = false)
  /\ List.filter (fun t => negb (completed t))
       (List.filter (fun t => negb (completed t)) l)
     = List.filter (fun t => negb (completed t)) l.
Proof.
  split; [apply filter_subseq|]. split; [|split].
  - apply Forall_forall. intros t Ht. apply filter_In in Ht.
    destruct Ht as (_ & Ht). now apply negb_true_iff.
  - intros t. rewrite filter_In, negb_true_iff. tauto.
  - induction l as [|x l IH]; simpl; [reflexivity|].
    destruct (completed x) eqn:Hx; simpl; [exact IH|]. rewrite Hx. simpl.
    rewrite IH. reflexivity.
Qed.

(** C8.  A clear-completed that the hosted table accepts leaves exactly
    the tasks that are not completed: the new list is the old one with
    the completed tasks taken out, the others unchanged and in their
    order. *)
Theorem clearCompleted_keeps_active (E : env) :
  (forall c u,
     TodoList.user c = Some u ->
     Supabase.error (remote E [] (Supabase.DeleteCompleted (Some u))) = None ->
     TodoList.todos (comp (after E TodoList.clearCompleted c))
     = List.filter (fun t => negb (completed t)) (TodoList.todos c)
     /\ subseq (TodoList.todos (comp (after E TodoList.clearCompleted c)))
               (TodoList.todos c)
     /\ Forall (fun t => completed t = false)
               (TodoList.todos (comp (after E TodoList.clearCompleted c)))
     /\ (forall t, In t (TodoList.todos (comp (after E TodoList.clearCompleted c)))
                   <-> In t (TodoList.todos c) /\ completed t = false))
  /\ (forall c,
     Supabase.error (remote E [] (Supabase.DeleteCompleted None)) = None ->
     SingleUser.todos (comp (after E Page.clearCompleted c))
     = List.filter (fun t => negb (completed t)) (SingleUser.todos c)
     /\ SingleUser.todos (comp (after E Part000.clearCompleted c))
        = List.filter (fun t => negb (completed t)) (SingleUser.todos c)
     /\ subseq (List.filter (fun t => negb (completed t)) (SingleUser.todos c))
               (SingleUser.todos c)
     /\ Forall (fun t => completed t = false)
               (List.filter (fun t => negb (completed t)) (SingleUser.todos c))
     /\ (forall t, In t (List.filter (fun t => negb (completed t)) (SingleUser.todos c))
                   <-> In t (SingleUser.todos c) /\ completed t = false)).
Proof.
  split.
  - intros c u Hu Hok.
    assert (H : TodoList.todos (comp (after E TodoList.clearCompleted c))
                = List.filter (fun t => negb (completed t)) (TodoList.todos c)).
    { handler. rewrite Hu. simpl. rewrite Hok. reflexivity. }
    rewrite H. split; [reflexivity|].
    destruct (keep_active_spec (TodoList.todos c)) as (H1 & H2 & H3 & _). auto.
  - intros c Hok.
    destruct (keep_active_spec (SingleUser.todos c)) as (H1 & H2 & H3 & _).
    split; [handler; rewrite Hok; reflexivity|].
    split; [handler; rewrite Hok; reflexivity|]. auto.
Qed.

Lemma clearCompleted_keeps_active_witness :
  TodoList.user (Sample.signed_in [] []) = Some 7%Z
  /\ Supabase.error (remote Sample.table_up [] (Supabase.DeleteCompleted (Some 7%Z))) = None
  /\ TodoList.todos (comp (after Sample.table_up TodoList.clearCompleted
                             (Sample.signed_in [] []))) = [Sample.taskA].
Proof.
  split; [reflexivity|]. split; [reflexivity|].
  exact (proj1 (proj1 (clearCompleted_keeps_active Sample.table_up)
                      (Sample.signed_in [] []) 7%Z eq_refl eq_refl)).
Defined.

(** ** Filtering *)

Lemma filter_true {A : Type} (l : list A) : List.filter (fun _ => true) l = l.
Proof. induction l as [|x l IH]; simpl; [|rewrite IH]; reflexivity. Qed.

Lemma subseq_incl {A : Type} (l l' : list A) : subseq l l' -> incl l l'.
Proof.
  induction 1 as [|x l l' _ IH|x l l' _ IH]; intros y Hy.
  - exact Hy.
  - right. exact (IH y Hy).
  - destruct Hy as [->|Hy]; [left; reflexivity | right; exact (IH y Hy)].
Qed.

(** C9.  [filteredTodos] is a function of the state alone.  Under mode
    "active" it is exactly the tasks that are not completed, under
    "completed" exactly the completed ones, under "all" the whole list;
    it is always a sub-list of the list.  Choosing a mode sends nothing
    to the hosted table and leaves the list as it was. *)
Theorem filteredTodos_by_mode :
  (forall c : TodoList.component,
     (TodoList.filter c = lit "active" ->
      TodoList.filteredTodos c
      = List.filter (fun t => negb (completed t)) (TodoList.todos c))
     /\ (TodoList.filter c = lit "completed" ->
         TodoList.filteredTodos c = List.filter completed (TodoList.todos c))
     /\ (TodoList.filter c = lit "all" ->
         TodoList.filteredTodos c = TodoList.todos c)
     /\ subseq (TodoList.filteredTodos c) (TodoList.todos c)
     /\ incl (TodoList.filteredTodos c) (TodoList.todos c)
     /\ forall E mode,
          requests (trace (after E (TodoList.clickFilter mode) c)) = []
          /\ TodoList.todos (comp (after E (TodoList.clickFilter mode) c))
             = TodoList.todos c
          /\ TodoList.filter (comp (after E (TodoList.clickFilter mode) c)) = mode)
  /\ (forall c : SingleUser.component,
     Page.filteredTodos c = SingleUser.filteredTodos c
     /\ Part000.filteredTodos c = SingleUser.filteredTodos c
     /\ (SingleUser.filter c = lit "active" ->
         SingleUser.filteredTodos c
         = List.filter (fun t => negb (completed t)) (SingleUser.todos c))
     /\ (SingleUser.filter c = lit "completed" ->
         SingleUser.filteredTodos c = List.filter completed (SingleUser.todos c))
     /\ (SingleUser.filter c = lit "all" ->
         SingleUser.filteredTodos c = SingleUser.todos c)
     /\ subseq (SingleUser.filteredTodos c) (SingleUser.todos c)
     /\ incl (SingleUser.filteredTodos c) (SingleUser.todos c)
     /\ forall E mode,
          requests (trace (after E (SingleUser.clickFilter mode) c)) = []
          /\ SingleUser.todos (comp (after E (SingleUser.clickFilter mode) c))
             = SingleUser.todos c
          /\ SingleUser.filter (comp (after E (SingleUser.clickFilter mode) c)) = mode).
Proof.
  split; intros c.
  - unfold TodoList.filteredTodos.
    split; [intros ->; reflexivity|].
    split; [intros ->; reflexivity|].
    split; [intros ->; apply filter_true|].
    split; [apply filter_subseq|].
    split; [apply subseq_incl, filter_subseq|].
    intros E mode. handler. repeat split.
  - split; [reflexivity|]. split; [reflexivity|].
    unfold SingleUser.filteredTodos.
    split; [intros ->; reflexivity|].
    split; [intros ->; reflexivity|].
    split; [intros ->; apply filter_true|].
    split; [apply filter_subseq|].
    split; [apply subseq_incl, filter_subseq|].
    intros E mode. handler. repeat split.
Qed.

Lemma filteredTodos_by_mode_witness :
  TodoList.filteredTodos
    {| TodoList.todos := [Sample.taskA; Sample.taskB]; TodoList.newTodo := [];
       TodoList.filter := lit "active"; TodoList.loading := false;
       TodoList.error := None; TodoList.editingTodo := None;
       TodoList.editText := []; TodoList.user := Some 7%Z |}
  = [Sample.taskA].
Proof.
  exact (proj1 (proj1 filteredTodos_by_mode
     {| TodoList.todos := [Sample.taskA; Sample.taskB]; TodoList.newTodo := [];
        TodoList.filter := lit "active"; TodoList.loading := false;
        TodoList.error := None; TodoList.editingTodo := None;
        TodoList.editText := []; TodoList.user := Some 7%Z |}) eq_refl).
Defined.

(** The scenario of the specification: two tasks, the second completed. *)
Example scenario :
  Page.filteredTodos
    {| SingleUser.todos := [Sample.taskA; Sample.taskB]; SingleUser.newTodo := [];
       SingleUser.filter := lit "completed"; SingleUser.loading := false;
       SingleUser.error := None |} = [Sample.taskB]
  /\ SingleUser.todos (comp (after Sample.table_up Page.clearCompleted (Sample.single [])))
     = [Sample.taskA]
  /\ Page.filteredTodos (comp (after Sample.table_up Page.clearCompleted (Sample.single [])))
     = [Sample.taskA].
Proof. repeat split. Qed.

(** ** Toggling a task that is not in the list *)

(** C10.  When no task of the list has id [i], [toggleTodo i] finds no
    task, the read of its [completed] raises inside the [try], the
    handler catches it and logs it; the call ends normally, nothing was
    sent to the hosted table and the list is as it was. *)
Theorem toggleTodo_unknown_id (E : env) (i : Z) :
  (forall c,
     ~ In i (List.map id (TodoList.todos c)) ->
     List.find (fun t => (id t =? i)%Z) (TodoList.todos c) = None
     /\ result E (TodoList.toggleTodo i) c = Ret tt
     /\ TodoList.todos (comp (after E (TodoList.toggleTodo i) c)) = TodoList.todos c
     /\ requests (trace (after E (TodoList.toggleTodo i) c)) = []
     /\ logged (trace (after E (TodoList.toggleTodo i) c))
        = [(lit "Error updating todo:", LogMsg (message (read_of_undefined "completed")))])
  /\ (forall c,
     ~ In i (List.map id (SingleUser.todos c)) ->
     List.find (fun t => (id t =? i)%Z) (SingleUser.todos c) = None
     /\ result E (Page.toggleTodo i) c = Ret tt
     /\ SingleUser.todos (comp (after E (Page.toggleTodo i) c)) = SingleUser.todos c
     /\ requests (trace (after E (Page.toggleTodo i) c)) = []
     /\ logged (trace (after E (Page.toggleTodo i) c))
        = [(lit "Error updating todo:", LogMsg (message (read_of_undefined "completed")))])
  /\ (forall c,
     ~ In i (List.map id (SingleUser.todos c)) ->
     List.find (fun t => (id t =? i)%Z) (SingleUser.todos c) = None
     /\ result E (Part000.toggleTodo i) c = Ret tt
     /\ SingleUser.todos (comp (after E (Part000.toggleTodo i) c)) = SingleUser.todos c
     /\ requests (trace (after E (Part000.toggleTodo i) c)) = []
     /\ logged (trace (after E (Part000.toggleTodo i) c))
        = [(lit "Error updating todo:", LogMsg (message (read_of_undefined "completed")))]).
Proof.
  split; [|split]; intros c Hout; (split; [exact (find_absent i _ Hout)|]);
    handler; rewrite (find_absent i _ Hout); simpl; repeat split.
Qed.

Lemma toggleTodo_unknown_id_witness :
  ~ In 9%Z (List.map id (TodoList.todos (Sample.signed_in [] [])))
  /\ result Sample.table_up (TodoList.toggleTodo 9) (Sample.signed_in [] []) = Ret tt
  /\ TodoList.todos (comp (after Sample.table_up (TodoList.toggleTodo 9)
                             (Sample.signed_in [] [])))
     = [Sample.taskA; Sample.taskB].
Proof.
  assert (H : ~ In 9%Z (List.map id (TodoList.todos (Sample.signed_in [] []))))
    by (simpl; intros [H|[H|[]]]; discriminate).
  split; [exact H|].
  destruct (proj1 (toggleTodo_unknown_id Sample.table_up 9) (Sample.signed_in [] []) H)
    as (_ & Hr & Hl & _).
  split; [exact Hr | exact Hl].
Defined.

(** ** No speculative change *)








(** ** String equality *)

Lemma str_eq_spec (a b : jsstring) : str_eq a b = true <-> a = b.
Proof.
  revert b. induction a as [|x a IH]; intros [|y b]; simpl; try (split; congruence).
  rewrite andb_true_iff, Z.eqb_eq, IH. split.
  - intros [-> ->]. reflexivity.
  - intros H. injection H as -> ->. split; reflexivity.
Qed.

(** * Further properties of the handlers *)

(** ** Exceptions and requests *)

(** X1.  No handler lets an exception escape: under every environment
    and from every state, each remote operation of the three copies ends
    normally. *)
Theorem handlers_return (E : env) :
  (forall a c, result E (Op.todoList a) c = Ret tt)
  /\ (forall a c, result E (Op.page a) c = Ret tt)
  /\ (forall a c, result E (Op.part000 a) c = Ret tt).
Proof.
  split; [|split]; intros a c.
  - destruct a; simpl Op.todoList; handler.
    + destruct (TodoList.user c); simpl; [|reflexivity].
      destruct (Supabase.error _); reflexivity.
    + destruct (truthy (trim (TodoList.newTodo c))); simpl; [|reflexivity].
      destruct (TodoList.user c); simpl; [|reflexivity].
      destruct (Supabase.error _); simpl; [reflexivity|].
      destruct (Supabase.data _) as [[|d0 r]|]; reflexivity.
    + destruct (List.find _ _); simpl; [|reflexivity].
      destruct (TodoList.user c); simpl; [|reflexivity].
      destruct (Supabase.error _); simpl; [reflexivity|].
      map_step (toggle_map i) l1 H1. reflexivity.
    + destruct (TodoList.user c); simpl; [|reflexivity].
      destruct (Supabase.error _); simpl; [reflexivity|].
      map_step (edit_map i (trim (TodoList.editText c))) l1 H1. reflexivity.
    + destruct (TodoList.user c); simpl; [|reflexivity].
      destruct (Supabase.error _); reflexivity.
    + destruct (TodoList.user c); simpl; [|reflexivity].
      destruct (Supabase.error _); reflexivity.
  - destruct a; simpl Op.page; handler.
    + destruct (Supabase.error _); reflexivity.
    + destruct (truthy (trim (SingleUser.newTodo c))); simpl; [|reflexivity].
      destruct (Supabase.error _); simpl; [reflexivity|].
      destruct (Supabase.data _) as [[|d0 r]|]; reflexivity.
    + destruct (List.find _ _); simpl; [|reflexivity].
      destruct (Supabase.error _); reflexivity.
    + destruct (Supabase.error _); reflexivity.
    + destruct (Supabase.error _); reflexivity.
  - destruct a; simpl Op.part000; handler.
    + destruct (Supabase.error _); reflexivity.
    + destruct (truthy (trim (SingleUser.newTodo c))); simpl; [|reflexivity].
      destruct (Supabase.error _); simpl; [reflexivity|].
      destruct (Supabase.data _) as [[|d0 r]|]; reflexivity.
    + destruct (List.find _ _); simpl; [|reflexivity].
      destruct (Supabase.error _); reflexivity.
    + destruct (Supabase.error _); reflexivity.
    + destruct (Supabase.error _); reflexivity.
Qed.

(** What an operation of the authenticated component sends: nothing, or
    one request scoped to the signed-in user. *)
Lemma todoList_requests (E : env) (a : Op.authenticated) (c : TodoList.component) :
  requests (trace (after E (Op.todoList a) c)) = []
  \/ exists q u, requests (trace (after E (Op.todoList a) c)) = [q]
                 /\ TodoList.user c = Some u /\ scope_of q = Some u.
Proof.
  destruct a; simpl Op.todoList; handler.
  - destruct (TodoList.user c) as [u|]; simpl; [|left; reflexivity].
    right. eexists _, u. destruct (Supabase.error _); simpl; repeat split.
  - destruct (truthy (trim (TodoList.newTodo c))); simpl; [|left; reflexivity].
    destruct (TodoList.user c) as [u|]; simpl; [|left; reflexivity].
    right. eexists _, u. destruct (Supabase.error _); simpl; [repeat split|].
    destruct (Supabase.data _) as [[|d0 r]|]; repeat split.
  - destruct (List.find _ _); simpl; [|left; reflexivity].
    destruct (TodoList.user c) as [u|]; simpl; [|left; reflexivity].
    right. eexists _, u. destruct (Supabase.error _); simpl; [repeat split|].
    map_step (toggle_map i) l1 H1. repeat split.
  - destruct (TodoList.user c) as [u|]; simpl; [|left; reflexivity].
    right. eexists _, u. destruct (Supabase.error _); simpl; [repeat split|].
    map_step (edit_map i (trim (TodoList.editText c))) l1 H1. repeat split.
  - destruct (TodoList.user c) as [u|]; simpl; [|left; reflexivity].
    right. eexists _, u. destruct (Supabase.error _); simpl; repeat split.
  - destruct (TodoList.user c) as [u|]; simpl; [|left; reflexivity].
    right. eexists _, u. destruct (Supabase.error _); simpl; repeat split.
Qed.

Lemma page_requests (E : env) (a : Op.single_user) (c : SingleUser.component) :
  requests (trace (after E (Op.page a) c)) = []
  \/ exists q, requests (trace (after E (Op.page a) c)) = [q] /\ scope_of q = None.
Proof.
  destruct a; simpl Op.page; handler.
  - right. eexists. destruct (Supabase.error _); simpl; repeat split.
  - destruct (truthy (trim (SingleUser.newTodo c))); simpl; [|left; reflexivity].
    right. eexists. destruct (Supabase.error _); simpl; [repeat split|].
    destruct (Supabase.data _) as [[|d0 r]|]; repeat split.
  - destruct (List.find _ _); simpl; [|left; reflexivity].
    right. eexists. destruct (Supabase.error _); simpl; repeat split.
  - right. eexists. destruct (Supabase.error _); simpl; repeat split.
  - right. eexists. destruct (Supabase.error _); simpl; repeat split.
Qed.

Lemma part000_requests (E : env) (a : Op.single_user) (c : SingleUser.component) :
  requests (trace (after E (Op.part000 a) c)) = []
  \/ exists q, requests (trace (after E (Op.part000 a) c)) = [q] /\ scope_of q = None.
Proof.
  destruct a; simpl Op.part000; handler.
  - right. eexists. destruct (Supabase.error _); simpl; repeat split.
  - destruct (truthy (trim (SingleUser.newTodo c))); simpl; [|left; reflexivity].
    right. eexists. destruct (Supabase.error _); simpl; [repeat split|].
    destruct (Supabase.data _) as [[|d0 r]|]; repeat split.
  - destruct (List.find _ _); simpl; [|left; reflexivity].
    right. eexists. destruct (Supabase.error _); simpl; repeat split.
  - right. eexists. destruct (Supabase.error _); simpl; repeat split.
  - right. eexists. destruct (Supabase.error _); simpl; repeat split.
Qed.

(** X2.  Each operation sends at most one request to the hosted table,
    in each of the three copies and whatever the table answers. *)
Theorem at_most_one_request (E : env) :
  (forall a c, (List.length (requests (trace (after E (Op.todoList a) c))) <= 1)%nat)
  /\ (forall a c, (List.length (requests (trace (after E (Op.page a) c))) <= 1)%nat)
  /\ (forall a c, (List.length (requests (trace (after E (Op.part000 a) c))) <= 1)%nat).
Proof.
  split; [|split]; intros a c.
  - destruct (todoList_requests E a c) as [->|(q & u & -> & _)]; simpl; lia.
  - destruct (page_requests E a c) as [->|(q & -> & _)]; simpl; lia.
  - destruct (part000_requests E a c) as [->|(q & -> & _)]; simpl; lia.
Qed.

(** X3.  Every request of the authenticated component is scoped to the
    signed-in user: its [user_id] filter (for an insert, the [user_id]
    of the row) is the id of [user]; with no user, nothing is sent.  The
    requests of the single-user copies carry no scope. *)
Theorem requests_scoped (E : env) :
  (forall a c,
     Forall (fun q => scope_of q = TodoList.user c /\ TodoList.user c <> None)
            (requests (trace (after E (Op.todoList a) c))))
  /\ (forall a c, TodoList.user c = None ->
                  requests (trace (after E (Op.todoList a) c)) = [])
  /\ (forall a c, Forall (fun q => scope_of q = None)
                         (requests (trace (after E (Op.page a) c))))
  /\ (forall a c, Forall (fun q => scope_of q = None)
                         (requests (trace (after E (Op.part000 a) c)))).
Proof.
  split; [|split; [|split]]; intros a c.
  - destruct (todoList_requests E a c) as [->|(q & u & -> & Hu & Hq)]; constructor.
    + rewrite Hu. split; [assumption | discriminate].
    + constructor.
  - intros Hu. destruct (todoList_requests E a c) as [H|(q & u & _ & Hu' & _)];
      [assumption | congruence].
  - destruct (page_requests E a c) as [->|(q & -> & Hq)]; constructor;
      [assumption | constructor].
  - destruct (part000_requests E a c) as [->|(q & -> & Hq)]; constructor;
      [assumption | constructor].
Qed.

(** ** Loading *)

(** X4.  [fetchTodos] always ends with [loading = false], whatever the
    hosted table answers.  The effect of the authenticated component
    runs it only with a user: mounted without one it sends nothing and
    the spinner stays. *)
Theorem load_ends_spinner (E : env) :
  (forall c, TodoList.loading (comp (after E TodoList.fetchTodos c)) = false)
  /\ (forall c, SingleUser.loading (comp (after E Page.fetchTodos c)) = false)
  /\ (forall c, SingleUser.loading (comp (after E Part000.fetchTodos c)) = false)
  /\ (forall u,
       TodoListView.render (Mount.todoList (Some u)) = TodoListView.Spinner
       /\ TodoListView.render
            (comp (after E Mount.todoListEffect (Mount.todoList (Some u))))
          <> TodoListView.Spinner)
  /\ after E Mount.todoListEffect (Mount.todoList None) = start (Mount.todoList None)
  /\ TodoListView.render (comp (after E Mount.todoListEffect (Mount.todoList None)))
     = TodoListView.Spinner.
Proof.
  split; [|split; [|split; [|split; [|split]]]].
  - intros c. handler. destruct (TodoList.user c); simpl; [|reflexivity].
    destruct (Supabase.error _); reflexivity.
  - intros c. handler. destruct (Supabase.error _); reflexivity.
  - intros c. handler. destruct (Supabase.error _); reflexivity.
  - intros u. split; [reflexivity|]. handler'.
    destruct (Supabase.error _); simpl; discriminate.
  - reflexivity.
  - reflexivity.
Qed.

(** X5.  A load that the hosted table accepts replaces the list by the
    rows returned, by the empty list when [data] is [null]; it logs
    nothing and leaves the error state as it was (an earlier message is
    not cleared). *)
Theorem load_replaces_list (E : env) :
  (forall c u,
     TodoList.user c = Some u ->
     Supabase.error (remote E [] (Supabase.Select (Some u))) = None ->
     TodoList.todos (comp (after E TodoList.fetchTodos c))
     = match Supabase.data (remote E [] (Supabase.Select (Some u))) with
       | Some d => d
       | None => []
       end
     /\ TodoList.error (comp (after E TodoList.fetchTodos c)) = TodoList.error c
     /\ logged (trace (after E TodoList.fetchTodos c)) = [])
  /\ (forall c,
     Supabase.error (remote E [] (Supabase.Select None)) = None ->
     SingleUser.todos (comp (after E Page.fetchTodos c))
     = match Supabase.data (remote E [] (Supabase.Select None)) with
       | Some d => d
       | None => []
       end
     /\ SingleUser.todos (comp (after E Part000.fetchTodos c))
        = SingleUser.todos (comp (after E Page.fetchTodos c))
     /\ SingleUser.error (comp (after E Page.fetchTodos c)) = SingleUser.error c
     /\ logged (trace (after E Page.fetchTodos c)) = []).
Proof.
  split.
  - intros c u Hu Hok. handler. rewrite Hu. simpl. rewrite Hok. simpl.
    repeat split.
  - intros c Hok. handler. rewrite Hok. simpl. repeat split.
Qed.

Lemma load_replaces_list_witness :
  TodoList.user (Mount.todoList (Some 7%Z)) = Some 7%Z
  /\ Supabase.error (remote Sample.table_up [] (Supabase.Select (Some 7%Z))) = None
  /\ TodoList.todos (comp (after Sample.table_up TodoList.fetchTodos
                             (Mount.todoList (Some 7%Z))))
     = [Sample.taskA; Sample.taskB].
Proof.
  split; [reflexivity|]. split; [reflexivity|].
  exact (proj1 (proj1 (load_replaces_list Sample.table_up)
                      (Mount.todoList (Some 7%Z)) 7%Z eq_refl eq_refl)).
Defined.

(** ** What [trim] leaves *)

Lemma trimStart_split (s : jsstring) :
  exists a, s = a ++ trimStart s /\ forallb isWhiteSpace a = true
            /\ clean_start (trimStart s).
Proof.
  induction s as [|c r (a & Hr & Ha & Hc)]; simpl.
  - exists []. repeat split.
  - destruct (isWhiteSpace c) eqn:Hw.
    + exists (c :: a). simpl. rewrite Hw, Ha. rewrite <- Hr. repeat split. exact Hc.
    + exists []. simpl. repeat split. exact Hw.
Qed.

Lemma trimStart_snoc (l : jsstring) (c : Z) :
  isWhiteSpace c = false -> trimStart (l ++ [c]) = trimStart l ++ [c].
Proof.
  intros Hc. induction l as [|x l IH]; simpl.
  - rewrite Hc. reflexivity.
  - destruct (isWhiteSpace x); [exact IH | reflexivity].
Qed.

Lemma trimStart_clean (s : jsstring) : clean_start s -> trimStart s = s.
Proof. destruct s as [|c r]; simpl; [reflexivity|]. intros ->. reflexivity. Qed.

Lemma trimEnd_keeps_start (s : jsstring) : clean_start s -> clean_start (trimEnd s).
Proof.
  destruct s as [|c r]; simpl; [intros _; exact I|].
  intros Hc. unfold trimEnd. simpl. rewrite (trimStart_snoc _ c Hc).
  rewrite rev_app_distr. simpl. exact Hc.
Qed.

Lemma trim_stripped (s : jsstring) : stripped s (trim s).
Proof.
  unfold stripped, clean_edges, trim.
  destruct (trimStart_split s) as (a & Hs & Ha & Hc).
  destruct (trimStart_split (rev (trimStart s))) as (b & Hr & Hb & Hd).
  split; [split|].
  - apply trimEnd_keeps_start, Hc.
  - unfold trimEnd. rewrite rev_involutive. exact Hd.
  - exists a, (rev b). split; [|split].
    + unfold trimEnd. rewrite <- rev_app_distr, <- Hr, rev_involutive. exact Hs.
    + exact Ha.
    + rewrite forallb_forall in *. intros x Hx. apply Hb, in_rev. exact Hx.
Qed.

Lemma trim_clean (s : jsstring) : clean_edges s -> trim s = s.
Proof.
  intros (H1 & H2). unfold trim, trimEnd.
  rewrite (trimStart_clean s H1), (trimStart_clean _ H2). apply rev_involutive.
Qed.

Lemma trim_idempotent (s : jsstring) : trim (trim s) = trim s.
Proof. apply trim_clean. exact (proj1 (trim_stripped s)). Qed.

(** ** The add form *)

(** X6.  [addTodo] empties the input exactly when it prepended a row:
    either the list and the input are as they were, or the list has one
    more row at its head, the input is empty and the error state is
    [null]. *)
Theorem addTodo_clears_input_on_success (E : env) :
  (forall c,
     (TodoList.todos (comp (after E TodoList.addTodo c)) = TodoList.todos c
      /\ TodoList.newTodo (comp (after E TodoList.addTodo c)) = TodoList.newTodo c)
     \/ (exists d,
           TodoList.todos (comp (after E TodoList.addTodo c)) = d :: TodoList.todos c
           /\ TodoList.newTodo (comp (after E TodoList.addTodo c)) = []
           /\ TodoList.error (comp (after E TodoList.addTodo c)) = None))
  /\ (forall c,
     (SingleUser.todos (comp (after E Page.addTodo c)) = SingleUser.todos c
      /\ SingleUser.newTodo (comp (after E Page.addTodo c)) = SingleUser.newTodo c)
     \/ (exists d,
           SingleUser.todos (comp (after E Page.addTodo c)) = d :: SingleUser.todos c
           /\ SingleUser.newTodo (comp (after E Page.addTodo c)) = []
           /\ SingleUser.error (comp (after E Page.addTodo c)) = None))
  /\ (forall c, after E Part000.addTodo c = after E Page.addTodo c).
Proof.
  split; [|split]; intros c.
  - handler.
    destruct (truthy (trim (TodoList.newTodo c))); simpl; [|left; split; reflexivity].
    destruct (TodoList.user c); simpl; [|left; split; reflexivity].
    destruct (Supabase.error _); simpl; [left; split; reflexivity|].
    destruct (Supabase.data _) as [[|d0 r]|]; simpl;
      [left; split; reflexivity | | left; split; reflexivity].
    right. exists d0. repeat split.
  - handler.
    destruct (truthy (trim (SingleUser.newTodo c))); simpl; [|left; split; reflexivity].
    destruct (Supabase.error _); simpl; [left; split; reflexivity|].
    destruct (Supabase.data _) as [[|d0 r]|]; simpl;
      [left; split; reflexivity | | left; split; reflexivity].
    right. exists d0. repeat split.
  - reflexivity.
Qed.

(** X7.  When the insert is answered without error and without a row
    ([data] is [null] or empty), the authenticated [addTodo] does
    nothing more: no message, nothing logged, list and input as they
    were.  The single-user [addTodo] raises and shows "No data returned
    from insert". *)
Theorem addTodo_without_row (E : env) :
  (forall c u,
     trim (TodoList.newTodo c) <> [] -> TodoList.user c = Some u ->
     (forall row, Supabase.error (remote E [] (Supabase.Insert row)) = None
                  /\ (Supabase.data (remote E [] (Supabase.Insert row)) = None
                      \/ Supabase.data (remote E [] (Supabase.Insert row)) = Some [])) ->
     TodoList.error (comp (after E TodoList.addTodo c)) = None
     /\ logged (trace (after E TodoList.addTodo c)) = []
     /\ TodoList.todos (comp (after E TodoList.addTodo c)) = TodoList.todos c
     /\ TodoList.newTodo (comp (after E TodoList.addTodo c)) = TodoList.newTodo c)
  /\ (forall c,
     trim (SingleUser.newTodo c) <> [] ->
     (forall row, Supabase.error (remote E [] (Supabase.Insert row)) = None
                  /\ (Supabase.data (remote E [] (Supabase.Insert row)) = None
                      \/ Supabase.data (remote E [] (Supabase.Insert row)) = Some [])) ->
     SingleUser.error (comp (after E Page.addTodo c))
     = Some (lit "No data returned from insert")
     /\ logged (trace (after E Page.addTodo c))
        = [(lit "Error adding todo:",
            LogErr {| kind := PlainError; message := lit "No data returned from insert" |})]
     /\ SingleUser.todos (comp (after E Page.addTodo c)) = SingleUser.todos c
     /\ SingleUser.newTodo (comp (after E Page.addTodo c)) = SingleUser.newTodo c).
Proof.
  split.
  - intros c u Hs Hu Hr.
    assert (Ht : truthy (trim (TodoList.newTodo c)) = true)
      by (destruct (trim (TodoList.newTodo c)); [congruence | reflexivity]).
    handler. rewrite Ht, Hu. simpl.
    match goal with |- context [remote E [] (Supabase.Insert ?row)] =>
      destruct (Hr row) as (-> & [-> | ->]) end; simpl; repeat split.
  - intros c Hs Hr.
    assert (Ht : truthy (trim (SingleUser.newTodo c)) = true)
      by (destruct (trim (SingleUser.newTodo c)); [congruence | reflexivity]).
    handler. rewrite Ht. simpl.
    match goal with |- context [remote E [] (Supabase.Insert ?row)] =>
      destruct (Hr row) as (-> & [-> | ->]) end; simpl; repeat split.
Qed.

Lemma addTodo_without_row_witness :
  trim (SingleUser.newTodo (Sample.single (lit "Buy milk"))) <> []
  /\ (forall row,
        Supabase.error (remote Scenario.table_silent [] (Supabase.Insert row)) = None
        /\ (Supabase.data (remote Scenario.table_silent [] (Supabase.Insert row)) = None
            \/ Supabase.data (remote Scenario.table_silent [] (Supabase.Insert row))
               = Some []))
  /\ SingleUser.error (comp (after Scenario.table_silent Page.addTodo
                               (Sample.single (lit "Buy milk"))))
     = Some (lit "No data returned from insert").
Proof.
  assert (Hs : trim (SingleUser.newTodo (Sample.single (lit "Buy milk"))) <> [])
    by (vm_compute; discriminate).
  assert (Hr : forall row,
        Supabase.error (remote Scenario.table_silent [] (Supabase.Insert row)) = None
        /\ (Supabase.data (remote Scenario.table_silent [] (Supabase.Insert row)) = None
            \/ Supabase.data (remote Scenario.table_silent [] (Supabase.Insert row))
               = Some []))
    by (intros row; split; [reflexivity | left; reflexivity]).
  split; [exact Hs|]. split; [exact Hr|].
  exact (proj1 (proj2 (addTodo_without_row Scenario.table_silent)
                      (Sample.single (lit "Buy milk")) Hs Hr)).
Defined.

(** X8.  Whatever [addTodo] sends is an insert of a row that is not
    completed and whose text is the input without the white space at
    its two ends: not empty, with no white space first or last. *)
Theorem addTodo_sends_stripped_text (E : env) :
  (forall c q,
     In q (requests (trace (after E TodoList.addTodo c))) ->
     exists row,
       q = Supabase.Insert row /\ Supabase.nr_completed row = false
       /\ Supabase.nr_text row <> []
       /\ stripped (TodoList.newTodo c) (Supabase.nr_text row))
  /\ (forall c q,
     In q (requests (trace (after E Page.addTodo c)))
     \/ In q (requests (trace (after E Part000.addTodo c))) ->
     exists row,
       q = Supabase.Insert row /\ Supabase.nr_completed row = false
       /\ Supabase.nr_text row <> []
       /\ stripped (SingleUser.newTodo c) (Supabase.nr_text row)).
Proof.
  split.
  - intros c q. handler.
    destruct (trim (TodoList.newTodo c)) as [|x r] eqn:Ht; simpl; [intros []|].
    destruct (TodoList.user c) as [u|]; simpl; [|intros []].
    intros Hq.
    assert (Hq' : q = Supabase.Insert
              {| Supabase.nr_text := x :: r; Supabase.nr_completed := false;
                 Supabase.nr_user_id := Some u; Supabase.nr_created_at := clock E 0;
                 Supabase.nr_updated_at := Some (clock E 1) |}).
    { revert Hq. destruct (Supabase.error _); simpl; [intros [<-|[]]; reflexivity|].
      destruct (Supabase.data _) as [[|d0 r0]|]; simpl; intros [<-|[]]; reflexivity. }
    eexists. split; [exact Hq'|]. simpl. split; [reflexivity|]. split; [discriminate|].
    rewrite <- Ht. apply trim_stripped.
  - intros c q Hq.
    assert (Hq1 : In q (requests (trace (after E Page.addTodo c))))
      by (destruct Hq as [Hq|Hq]; exact Hq).
    clear Hq. revert Hq1. handler.
    destruct (trim (SingleUser.newTodo c)) as [|x r] eqn:Ht; simpl; [intros []|].
    intros Hq.
    assert (Hq' : q = Supabase.Insert
              {| Supabase.nr_text := x :: r; Supabase.nr_completed := false;
                 Supabase.nr_user_id := None; Supabase.nr_created_at := clock E 0;
                 Supabase.nr_updated_at := None |}).
    { revert Hq. destruct (Supabase.error _); simpl; [intros [<-|[]]; reflexivity|].
      destruct (Supabase.data _) as [[|d0 r0]|]; simpl; intros [<-|[]]; reflexivity. }
    eexists. split; [exact Hq'|]. simpl. split; [reflexivity|]. split; [discriminate|].
    rewrite <- Ht. apply trim_stripped.
Qed.

Lemma addTodo_sends_stripped_text_witness :
  In (Supabase.Insert
        {| Supabase.nr_text := lit "Buy milk"; Supabase.nr_completed := false;
           Supabase.nr_user_id := Some 7%Z;
           Supabase.nr_created_at := Sample.stamp 0;
           Supabase.nr_updated_at := Some (Sample.stamp 1) |})
     (requests (trace (after Sample.table_up TodoList.addTodo
                         (Sample.signed_in (lit "  Buy milk ") []))))
  /\ exists row,
       Supabase.Insert
         {| Supabase.nr_text := lit "Buy milk"; Supabase.nr_completed := false;
            Supabase.nr_user_id := Some 7%Z;
            Supabase.nr_created_at := Sample.stamp 0;
            Supabase.nr_updated_at := Some (Sample.stamp 1) |}
       = Supabase.Insert row
       /\ Supabase.nr_completed row = false
       /\ Supabase.nr_text row <> []
       /\ stripped (TodoList.newTodo (Sample.signed_in (lit "  Buy milk ") []))
                   (Supabase.nr_text row).
Proof.
  assert (H : In (Supabase.Insert
        {| Supabase.nr_text := lit "Buy milk"; Supabase.nr_completed := false;
           Supabase.nr_user_id := Some 7%Z;
           Supabase.nr_created_at := Sample.stamp 0;
           Supabase.nr_updated_at := Some (Sample.stamp 1) |})
     (requests (trace (after Sample.table_up TodoList.addTodo
                         (Sample.signed_in (lit "  Buy milk ") [])))))
    by (left; reflexivity).
  split; [exact H|].
  exact (proj1 (addTodo_sends_stripped_text Sample.table_up) _ _ H).
Defined.

(** ** Editing *)

Lemma saved_later (E : env) (n m : nat) (i : Z) (v : jsstring) (l l' : list todo) :
  (n <= m)%nat -> Forall2 (saved E m i v) l l' -> Forall2 (saved E n i v) l l'.
Proof.
  intros Hnm H. induction H as [|x y l l' Hxy _ IH]; constructor; [|exact IH].
  unfold saved in *. destruct (id x =? i)%Z; [|exact Hxy].
  destruct Hxy as (k & Hk & ->). exists k. split; [lia | reflexivity].
Qed.

(** The [map] of [saveEdit], row by row: it reads the clock once for
    each row of id [i] and returns the other rows as they are. *)
Lemma edit_map_exact (i : Z) (v : jsstring) (l : list todo) (E : env)
    (w : world TodoList.component) :
  exists l' n,
    mapM (fun t =>
            if (id t =? i)%Z
            then t2 <- now ;; ret (TodoList.with_text t v t2)
            else ret t) l E w
    = (Ret l', {| comp := comp w; trace := trace w; tick := n |})
    /\ Forall2 (saved E (tick w) i v) l l'.
Proof.
  revert w. induction l as [|x l IH]; intros w; simpl.
  - exists [], (tick w). destruct w; simpl. split; [reflexivity | constructor].
  - unfold bind at 1. destruct (id x =? i)%Z eqn:Hx.
    + unfold bind at 1, now at 1, ret at 1. simpl.
      destruct (IH {| comp := comp w; trace := trace w; tick := S (tick w) |})
        as (l' & n & Hm & Hl).
      unfold bind at 1. rewrite Hm. unfold ret. simpl.
      exists (TodoList.with_text x v (clock E (tick w)) :: l'), n.
      split; [reflexivity|]. constructor.
      * unfold saved. rewrite Hx. exists (tick w). split; [lia | reflexivity].
      * apply (saved_later E (tick w) (S (tick w))); [lia | exact Hl].
    + unfold ret at 1.
      destruct (IH w) as (l' & n & Hm & Hl).
      unfold bind at 1. rewrite Hm. unfold ret. simpl.
      exists (x :: l'), n. split; [reflexivity|]. constructor; [|exact Hl].
      unfold saved. rewrite Hx. reflexivity.
Qed.

(** X9.  A [saveEdit] that the hosted table accepts returns every task
    of another id as the very record it was, and makes of each task of
    id [i] the record [{ ...todo, text, updated_at }] with the trimmed
    draft as text and a clock reading taken after the request's as
    [updated_at]; it leaves the edit mode ([editingTodo] is [null]),
    keeps the draft and the error state. *)
Theorem saveEdit_accepted (E : env) (i : Z) (c : TodoList.component) (u : Z) :
  TodoList.user c = Some u ->
  Supabase.error (remote E [] (Supabase.UpdateText i (trim (TodoList.editText c))
                                 (Some (clock E 0)) (Some u))) = None ->
  Forall2 (saved E 1 i (trim (TodoList.editText c))) (TodoList.todos c)
          (TodoList.todos (comp (after E (TodoList.saveEdit i) c)))
  /\ TodoList.editingTodo (comp (after E (TodoList.saveEdit i) c)) = None
  /\ TodoList.editText (comp (after E (TodoList.saveEdit i) c)) = TodoList.editText c
  /\ TodoList.error (comp (after E (TodoList.saveEdit i) c)) = TodoList.error c.
Proof.
  intros Hu Hok. handler. rewrite Hu. simpl. rewrite Hok. simpl.
  map_step (edit_map_exact i (trim (TodoList.editText c))) l1 H1.
  repeat split. exact H1.
Qed.

Lemma saveEdit_accepted_witness :
  TodoList.user (Sample.signed_in [] (lit " A2 ")) = Some 7%Z
  /\ Supabase.error
       (remote Sample.table_up []
          (Supabase.UpdateText 1 (trim (TodoList.editText (Sample.signed_in [] (lit " A2 "))))
             (Some (clock Sample.table_up 0)) (Some 7%Z))) = None
  /\ List.map text (TodoList.todos (comp (after Sample.table_up (TodoList.saveEdit 1)
                                            (Sample.signed_in [] (lit " A2 ")))))
     = [lit "A2"; lit "B"]
  /\ TodoList.editingTodo (comp (after Sample.table_up (TodoList.saveEdit 1)
                                   (Sample.signed_in [] (lit " A2 ")))) = None.
Proof.
  split; [reflexivity|]. split; [reflexivity|]. split; [reflexivity|].
  exact (proj1 (proj2 (saveEdit_accepted Sample.table_up 1
                         (Sample.signed_in [] (lit " A2 ")) 7%Z eq_refl eq_refl))).
Defined.

(** X10.  A [saveEdit] that the hosted table refuses keeps the row in
    edit mode with its draft: [editingTodo], [editText] and the list are
    as they were, and the table's message is in the error state. *)
Theorem saveEdit_refused_keeps_draft (E : env) (i : Z) (c : TodoList.component) (u : Z)
    (m : jsstring) :
  TodoList.user c = Some u ->
  Supabase.error (remote E [] (Supabase.UpdateText i (trim (TodoList.editText c))
                                 (Some (clock E 0)) (Some u))) = Some m ->
  TodoList.editingTodo (comp (after E (TodoList.saveEdit i) c)) = TodoList.editingTodo c
  /\ TodoList.editText (comp (after E (TodoList.saveEdit i) c)) = TodoList.editText c
  /\ TodoList.todos (comp (after E (TodoList.saveEdit i) c)) = TodoList.todos c
  /\ TodoList.error (comp (after E (TodoList.saveEdit i) c)) = Some m.
Proof.
  intros Hu Hko. handler. rewrite Hu. simpl. rewrite Hko. simpl. repeat split.
Qed.

Lemma saveEdit_refused_keeps_draft_witness :
  TodoList.user (Sample.signed_in [] (lit "A2")) = Some 7%Z
  /\ Supabase.error
       (remote Sample.table_down []
          (Supabase.UpdateText 1 (trim (TodoList.editText (Sample.signed_in [] (lit "A2"))))
             (Some (clock Sample.table_down 0)) (Some 7%Z))) = Some (lit "Failed to fetch")
  /\ TodoList.editingTodo (comp (after Sample.table_down (TodoList.saveEdit 1)
                                   (Sample.signed_in [] (lit "A2")))) = Some 1%Z
  /\ TodoList.editText (comp (after Sample.table_down (TodoList.saveEdit 1)
                                (Sample.signed_in [] (lit "A2")))) = lit "A2".
Proof.
  split; [reflexivity|]. split; [reflexivity|].
  destruct (saveEdit_refused_keeps_draft Sample.table_down 1
              (Sample.signed_in [] (lit "A2")) 7%Z (lit "Failed to fetch")
              eq_refl eq_refl) as (H1 & H2 & _).
  split; [exact H1 | exact H2].
Defined.

Lemma unique_by_id (l : list todo) (t t' : todo) :
  NoDup (List.map id l) -> In t l -> In t' l -> id t' = id t -> t' = t.
Proof.
  induction l as [|x l IH]; simpl; [tauto|].
  intros Hd Ht Ht' Hid. inversion Hd as [|y ys Hx Hd']; subst.
  destruct Ht as [->|Ht], Ht' as [->|Ht'].
  - reflexivity.
  - exfalso. apply Hx. rewrite <- Hid. apply in_map. exact Ht'.
  - exfalso. apply Hx. rewrite Hid. apply in_map. exact Ht.
  - exact (IH Hd' Ht Ht' Hid).
Qed.

Lemma edited_same (i : Z) (v : jsstring) (l l' : list todo) :
  (forall t, In t l -> id t = i -> text t = v) ->
  Forall2 (edited i v) l l' -> Forall2 same_but_stamp l l'.
Proof.
  intros Hv H. induction H as [|x y l l' (a1 & a2 & a3 & a4 & a5) _ IH].
  - constructor.
  - constructor.
    + unfold same_but_stamp. repeat split; try assumption.
      rewrite a5. destruct (id x =? i)%Z eqn:Hx; [|reflexivity].
      symmetry. apply Hv; [left; reflexivity | now apply Z.eqb_eq].
    + apply IH. intros t Ht. apply Hv. right. exact Ht.
Qed.

(** X11.  Opening a task for edit and saving at once changes nothing but
    [updated_at]: with distinct ids, a task [t] of the list whose text
    has no white space at its ends, a signed-in user and a table that
    accepts, [startEditing t] followed by [saveEdit (id t)] gives back
    every task with its id, text and flag, and ends the edit mode. *)
Theorem edit_round_trip (E : env) (t : todo) (c : TodoList.component) (u : Z) :
  succeeds E -> TodoList.user c = Some u ->
  NoDup (List.map id (TodoList.todos c)) -> In t (TodoList.todos c) ->
  clean_edges (text t) ->
  Forall2 same_but_stamp (TodoList.todos c)
    (TodoList.todos (comp (then_after E (TodoList.saveEdit (id t))
                             (after E (TodoList.startEditing t) c))))
  /\ TodoList.editingTodo (comp (then_after E (TodoList.saveEdit (id t))
                                   (after E (TodoList.startEditing t) c))) = None
  /\ TodoList.editingTodo (comp (after E (TodoList.startEditing t) c)) = Some (id t)
  /\ TodoList.editText (comp (after E (TodoList.startEditing t) c)) = text t.
Proof.
  intros Hok Hu Hd Hin Hc. handler. rewrite Hu. simpl. rewrite Hok. simpl.
  map_step (edit_map (id t) (trim (text t))) l1 H1.
  repeat split.
  apply (edited_same (id t) (trim (text t))); [|exact H1].
  intros t' Ht' Hid. rewrite (trim_clean _ Hc). f_equal.
  exact (unique_by_id _ t t' Hd Hin Ht' Hid).
Qed.

Lemma taskA_clean : clean_edges (text Sample.taskA).
Proof. split; reflexivity. Qed.

Lemma edit_round_trip_witness :
  succeeds Sample.table_up
  /\ TodoList.user (Sample.signed_in [] []) = Some 7%Z
  /\ NoDup (List.map id (TodoList.todos (Sample.signed_in [] [])))
  /\ In Sample.taskA (TodoList.todos (Sample.signed_in [] []))
  /\ clean_edges (text Sample.taskA)
  /\ Forall2 same_but_stamp (TodoList.todos (Sample.signed_in [] []))
       (TodoList.todos
          (comp (then_after Sample.table_up (TodoList.saveEdit (id Sample.taskA))
                   (after Sample.table_up (TodoList.startEditing Sample.taskA)
                      (Sample.signed_in [] []))))).
Proof.
  split; [exact table_up_succeeds|]. split; [reflexivity|].
  split; [exact sample_ids_distinct|]. split; [left; reflexivity|].
  split; [exact taskA_clean|].
  exact (proj1 (edit_round_trip Sample.table_up Sample.taskA (Sample.signed_in [] []) 7%Z
                  table_up_succeeds eq_refl sample_ids_distinct
                  (or_introl eq_refl) taskA_clean)).
Defined.

(** X12.  Cancelling discards the draft and touches nothing else: after
    [startEditing], any typing and [cancelEdit], the edit mode is off,
    the draft is empty, the list is as it was, nothing was sent or
    logged, and no row renders an editor. *)
Theorem cancelEdit_discards (E : env) (t : todo) (v : jsstring) (c : TodoList.component) :
  TodoList.todos (comp (then_after E TodoList.cancelEdit
                          (then_after E (Mount.typeEditText v)
                             (after E (TodoList.startEditing t) c))))
  = TodoList.todos c
  /\ TodoList.editingTodo (comp (then_after E TodoList.cancelEdit
                                   (then_after E (Mount.typeEditText v)
                                      (after E (TodoList.startEditing t) c)))) = None
  /\ TodoList.editText (comp (then_after E TodoList.cancelEdit
                                (then_after E (Mount.typeEditText v)
                                   (after E (TodoList.startEditing t) c)))) = []
  /\ trace (then_after E TodoList.cancelEdit
              (then_after E (Mount.typeEditText v)
                 (after E (TodoList.startEditing t) c))) = []
  /\ TodoList.editText (comp (then_after E (Mount.typeEditText v)
                                (after E (TodoList.startEditing t) c))) = v
  /\ forall r,
       In r (List.map (TodoListView.renderRow
                         (comp (then_after E TodoList.cancelEdit
                                  (then_after E (Mount.typeEditText v)
                                     (after E (TodoList.startEditing t) c)))))
               (TodoList.filteredTodos
                  (comp (then_after E TodoList.cancelEdit
                           (then_after E (Mount.typeEditText v)
                              (after E (TodoList.startEditing t) c)))))) ->
       TodoListView.editor r = None.
Proof.
  handler'. repeat split.
  intros r Hr. apply in_map_iff in Hr. destruct Hr as (x & <- & _). reflexivity.
Qed.

(** ** Deleting, again *)

(** X13.  Deleting an id that no task of the list has still sends the
    delete (where toggling such an id sends nothing); when the hosted
    table accepts it, the list and the error state are as they were and
    nothing is logged. *)
Theorem deleteTodo_unknown_id (E : env) (i : Z) :
  (forall c u,
     TodoList.user c = Some u ->
     Supabase.error (remote E [] (Supabase.DeleteById i (Some u))) = None ->
     ~ In i (List.map id (TodoList.todos c)) ->
     requests (trace (after E (TodoList.deleteTodo i) c))
     = [Supabase.DeleteById i (Some u)]
     /\ TodoList.todos (comp (after E (TodoList.deleteTodo i) c)) = TodoList.todos c
     /\ TodoList.error (comp (after E (TodoList.deleteTodo i) c)) = TodoList.error c
     /\ logged (trace (after E (TodoList.deleteTodo i) c)) = [])
  /\ (forall c,
     Supabase.error (remote E [] (Supabase.DeleteById i None)) = None ->
     ~ In i (List.map id (SingleUser.todos c)) ->
     requests (trace (after E (Page.deleteTodo i) c)) = [Supabase.DeleteById i None]
     /\ after E (Page.deleteTodo i) c = after E (Part000.deleteTodo i) c
     /\ SingleUser.todos (comp (after E (Page.deleteTodo i) c)) = SingleUser.todos c
     /\ SingleUser.error (comp (after E (Page.deleteTodo i) c)) = SingleUser.error c
     /\ logged (trace (after E (Page.deleteTodo i) c)) = []).
Proof.
  split.
  - intros c u Hu Hok Hout. handler. rewrite Hu. simpl. rewrite Hok. simpl.
    rewrite (filter_out_absent i _ Hout). repeat split.
  - intros c Hok Hout. handler. rewrite Hok. simpl.
    rewrite (filter_out_absent i _ Hout). repeat split.
Qed.

Lemma deleteTodo_unknown_id_witness :
  Supabase.error (remote Sample.table_up [] (Supabase.DeleteById 9 None)) = None
  /\ ~ In 9%Z (List.map id (SingleUser.todos (Sample.single [])))
  /\ requests (trace (after Sample.table_up (Page.deleteTodo 9) (Sample.single [])))
     = [Supabase.DeleteById 9 None]
  /\ SingleUser.todos (comp (after Sample.table_up (Page.deleteTodo 9) (Sample.single [])))
     = [Sample.taskA; Sample.taskB].
Proof.
  assert (H : ~ In 9%Z (List.map id (SingleUser.todos (Sample.single []))))
    by (simpl; intros [H|[H|[]]]; discriminate).
  split; [reflexivity|]. split; [exact H|].
  destruct (proj2 (deleteTodo_unknown_id Sample.table_up 9) (Sample.single []) eq_refl H)
    as (H1 & _ & H2 & _).
  split; [exact H1 | exact H2].
Defined.

Lemma filter_out_gone (i : Z) (l : list todo) :
  ~ In i (List.map id (List.filter (fun t => negb (id t =? i)%Z) l)).
Proof.
  intros H. apply in_map_iff in H. destruct H as (t & Ht & Hin).
  apply filter_In in Hin. destruct Hin as (_ & Hne).
  rewrite (proj2 (Z.eqb_eq _ _) Ht) in Hne. discriminate.
Qed.

(** X14.  After a delete that the hosted table accepts no task has the
    deleted id, also when several rows had it; the tasks of another id
    stay, in their order; and a second accepted delete of the same id
    leaves the list as the first one left it. *)
Theorem deleteTodo_accepted (E : env) (i : Z) :
  succeeds E ->
  (forall c u,
     TodoList.user c = Some u ->
     TodoList.todos (comp (after E (TodoList.deleteTodo i) c))
     = List.filter (fun t => negb (id t =? i)%Z) (TodoList.todos c)
     /\ ~ In i (List.map id (TodoList.todos (comp (after E (TodoList.deleteTodo i) c))))
     /\ subseq (TodoList.todos (comp (after E (TodoList.deleteTodo i) c)))
               (TodoList.todos c)
     /\ (forall t, In t (TodoList.todos c) -> id t <> i ->
                   In t (TodoList.todos (comp (after E (TodoList.deleteTodo i) c))))
     /\ TodoList.todos (comp (then_after E (TodoList.deleteTodo i)
                                (after E (TodoList.deleteTodo i) c)))
        = TodoList.todos (comp (after E (TodoList.deleteTodo i) c)))
  /\ (forall c,
     SingleUser.todos (comp (after E (Page.deleteTodo i) c))
     = List.filter (fun t => negb (id t =? i)%Z) (SingleUser.todos c)
     /\ SingleUser.todos (comp (after E (Part000.deleteTodo i) c))
        = List.filter (fun t => negb (id t =? i)%Z) (SingleUser.todos c)
     /\ ~ In i (List.map id (SingleUser.todos (comp (after E (Page.deleteTodo i) c))))
     /\ (forall t, In t (SingleUser.todos c) -> id t <> i ->
                   In t (SingleUser.todos (comp (after E (Page.deleteTodo i) c))))
     /\ SingleUser.todos (comp (then_after E (Page.deleteTodo i)
                                  (after E (Page.deleteTodo i) c)))
        = SingleUser.todos (comp (after E (Page.deleteTodo i) c))).
Proof.
  intros Hok. split.
  - intros c u Hu.
    assert (H1 : TodoList.todos (comp (after E (TodoList.deleteTodo i) c))
                 = List.filter (fun t => negb (id t =? i)%Z) (TodoList.todos c))
      by (handler; rewrite Hu; simpl; rewrite Hok; reflexivity).
    split; [exact H1|]. rewrite H1.
    split; [apply filter_out_gone|]. split; [apply filter_subseq|]. split.
    + intros t Ht Hne. apply filter_In. split; [exact Ht|].
      apply negb_true_iff, Z.eqb_neq, Hne.
    + handler. rewrite Hu. simpl. rewrite Hok. simpl. rewrite Hu. simpl.
      rewrite Hok. simpl. apply filter_out_absent, filter_out_gone.
  - intros c.
    assert (H1 : SingleUser.todos (comp (after E (Page.deleteTodo i) c))
                 = List.filter (fun t => negb (id t =? i)%Z) (SingleUser.todos c))
      by (handler; rewrite Hok; reflexivity).
    split; [exact H1|].
    split; [handler; rewrite Hok; reflexivity|]. rewrite H1.
    split; [apply filter_out_gone|]. split.
    + intros t Ht Hne. apply filter_In. split; [exact Ht|].
      apply negb_true_iff, Z.eqb_neq, Hne.
    + handler. rewrite Hok. simpl. rewrite Hok. simpl.
      apply filter_out_absent, filter_out_gone.
Qed.

Lemma deleteTodo_accepted_witness :
  succeeds Sample.table_up
  /\ TodoList.user (Scenario.with_todos [Sample.taskA; Sample.taskB; Scenario.taskA'])
     = Some 7%Z
  /\ TodoList.todos
       (comp (after Sample.table_up (TodoList.deleteTodo 1)
                (Scenario.with_todos [Sample.taskA; Sample.taskB; Scenario.taskA'])))
     = [Sample.taskB].
Proof.
  split; [exact table_up_succeeds|]. split; [reflexivity|].
  exact (proj1 (proj1 (deleteTodo_accepted Sample.table_up 1 table_up_succeeds)
                      (Scenario.with_todos [Sample.taskA; Sample.taskB; Scenario.taskA'])
                      7%Z eq_refl)).
Defined.

(** ** Clearing and the view *)

Lemma no_completed_left (l : list todo) :
  existsb completed (List.filter (fun t => negb (completed t)) l) = false.
Proof.
  induction l as [|x l IH]; simpl; [reflexivity|].
  destruct (completed x) eqn:Hx; simpl; [exact IH|]. rewrite Hx. exact IH.
Qed.

Lemma completed_of_active (l : list todo) :
  List.filter completed (List.filter (fun t => negb (completed t)) l) = [].
Proof.
  induction l as [|x l IH]; simpl; [reflexivity|].
  destruct (completed x) eqn:Hx; simpl; [exact IH|]. rewrite Hx. exact IH.
Qed.

(** X15.  After a clear-completed that the hosted table accepts, the
    "Clear Completed" button is no longer rendered
    ([todos.some(todo => todo.completed)] is false); under the filter
    "completed" no row is rendered and the empty state shows; and a
    second accepted clear leaves the list as the first one left it. *)
Theorem clearCompleted_then_view (E : env) :
  (forall c u,
     TodoList.user c = Some u -> TodoList.loading c = false ->
     Supabase.error (remote E [] (Supabase.DeleteCompleted (Some u))) = None ->
     exists m,
       TodoListView.render (comp (after E TodoList.clearCompleted c)) = TodoListView.Main m
       /\ TodoListView.clearButton m = false
       /\ (TodoList.filter c = lit "completed" ->
           TodoListView.rows m = [] /\ TodoListView.emptyState m = true)
       /\ (Supabase.error (remote E [Supabase.DeleteCompleted (Some u)]
                             (Supabase.DeleteCompleted (Some u))) = None ->
           TodoList.todos (comp (then_after E TodoList.clearCompleted
                                   (after E TodoList.clearCompleted c)))
           = TodoList.todos (comp (after E TodoList.clearCompleted c))))
  /\ (forall c,
     SingleUser.loading c = false ->
     Supabase.error (remote E [] (Supabase.DeleteCompleted None)) = None ->
     exists m,
       SingleUserView.render (comp (after E Page.clearCompleted c)) = SingleUserView.Main m
       /\ SingleUserView.render (comp (after E Part000.clearCompleted c))
          = SingleUserView.Main m
       /\ SingleUserView.clearButton m = false
       /\ (SingleUser.filter c = lit "completed" ->
           SingleUserView.rows m = []
           /\ SingleUserView.pageEmptyState (comp (after E Page.clearCompleted c)) = true)).
Proof.
  split.
  - intros c u Hu Hl Hok. eexists. unfold TodoListView.render. handler.
    rewrite Hu. simpl. rewrite Hok. simpl. rewrite Hl.
    split; [reflexivity|]. simpl. split; [apply no_completed_left|]. split.
    + intros Hf. unfold TodoList.filteredTodos. simpl. rewrite Hf. simpl.
      change (str_eq (lit "completed") (lit "active")) with false.
      change (str_eq (lit "completed") (lit "completed")) with true.
      cbv iota. replace (List.filter (fun t => completed t) _) with (@nil todo).
      * split; reflexivity.
      * symmetry. apply completed_of_active.
    + intros Hok2. rewrite Hu. simpl. rewrite Hok2. simpl.
      apply (proj2 (proj2 (proj2 (keep_active_spec (TodoList.todos c))))).
  - intros c Hl Hok. eexists.
    unfold SingleUserView.render, SingleUserView.pageEmptyState, Page.filteredTodos.
    handler. rewrite Hok. simpl. rewrite Hl.
    split; [reflexivity|]. split; [reflexivity|]. simpl.
    split; [apply no_completed_left|].
    intros Hf. unfold SingleUser.filteredTodos. simpl. rewrite Hf. simpl.
    change (str_eq (lit "completed") (lit "active")) with false.
    change (str_eq (lit "completed") (lit "completed")) with true.
    cbv iota. replace (List.filter (fun t => completed t) _) with (@nil todo).
    + split; reflexivity.
    + symmetry. apply completed_of_active.
Qed.

Lemma clearCompleted_then_view_witness :
  TodoList.user (Sample.signed_in [] []) = Some 7%Z
  /\ TodoList.loading (Sample.signed_in [] []) = false
  /\ Supabase.error (remote Sample.table_up [] (Supabase.DeleteCompleted (Some 7%Z))) = None
  /\ TodoListView.render (Sample.signed_in [] []) <> TodoListView.Spinner
  /\ exists m,
       TodoListView.render (comp (after Sample.table_up TodoList.clearCompleted
                                    (Sample.signed_in [] []))) = TodoListView.Main m
       /\ TodoListView.clearButton m = false.
Proof.
  split; [reflexivity|]. split; [reflexivity|]. split; [reflexivity|].
  split; [discriminate|].
  destruct (proj1 (clearCompleted_then_view Sample.table_up) (Sample.signed_in [] []) 7%Z
              eq_refl eq_refl eq_refl) as (m & H1 & H2 & _).
  exists m. split; [exact H1 | exact H2].
Defined.

(** ** The three views *)

Lemma filter_split_perm (l : list todo) :
  Permutation l (List.filter (fun t => negb (completed t)) l ++ List.filter completed l).
Proof.
  induction l as [|x l IH]; simpl; [constructor|].
  destruct (completed x); simpl.
  - apply Permutation_cons_app. exact IH.
  - constructor. exact IH.
Qed.

Lemma str_eq_false (a b : jsstring) : a <> b -> str_eq a b = false.
Proof.
  intros H. destruct (str_eq a b) eqn:Hab; [|reflexivity].
  apply str_eq_spec in Hab. contradiction.
Qed.

(** X16.  The views "active" and "completed" split the list: together
    they hold every task once, so their sizes add up to the size of the
    list, and no task is in both.  Any other mode, not only "all", shows
    the whole list. *)
Theorem views_split_list (E : env) :
  (forall c,
     Permutation (TodoList.todos c)
       (TodoList.filteredTodos (comp (after E (TodoList.clickFilter (lit "active")) c))
        ++ TodoList.filteredTodos
             (comp (after E (TodoList.clickFilter (lit "completed")) c)))
     /\ (List.length (TodoList.filteredTodos
                        (comp (after E (TodoList.clickFilter (lit "active")) c)))
         + List.length (TodoList.filteredTodos
                          (comp (after E (TodoList.clickFilter (lit "completed")) c)))
         = List.length (TodoList.todos c))%nat
     /\ (forall t,
           In t (TodoList.filteredTodos
                   (comp (after E (TodoList.clickFilter (lit "active")) c))) ->
           ~ In t (TodoList.filteredTodos
                     (comp (after E (TodoList.clickFilter (lit "completed")) c))))
     /\ (forall mode, mode <> lit "active" -> mode <> lit "completed" ->
           TodoList.filteredTodos (comp (after E (TodoList.clickFilter mode) c))
           = TodoList.todos c))
  /\ (forall c,
     Permutation (SingleUser.todos c)
       (SingleUser.filteredTodos (comp (after E (SingleUser.clickFilter (lit "active")) c))
        ++ SingleUser.filteredTodos
             (comp (after E (SingleUser.clickFilter (lit "completed")) c)))
     /\ (forall t,
           In t (SingleUser.filteredTodos
                   (comp (after E (SingleUser.clickFilter (lit "active")) c))) ->
           ~ In t (SingleUser.filteredTodos
                     (comp (after E (SingleUser.clickFilter (lit "completed")) c))))
     /\ (forall mode, mode <> lit "active" -> mode <> lit "completed" ->
           SingleUser.filteredTodos (comp (after E (SingleUser.clickFilter mode) c))
           = SingleUser.todos c)).
Proof.
  split; intros c.
  - assert (Ha : TodoList.filteredTodos
                   (comp (after E (TodoList.clickFilter (lit "active")) c))
                 = List.filter (fun t => negb (completed t)) (TodoList.todos c))
      by reflexivity.
    assert (Hc : TodoList.filteredTodos
                   (comp (after E (TodoList.clickFilter (lit "completed")) c))
                 = List.filter completed (TodoList.todos c))
      by reflexivity.
    rewrite Ha, Hc. split; [apply filter_split_perm|]. split; [|split].
    + rewrite <- length_app. symmetry. apply Permutation_length, filter_split_perm.
    + intros t H1 H2. apply filter_In in H1. apply filter_In in H2.
      destruct H1 as (_ & H1), H2 as (_ & H2). rewrite H2 in H1. discriminate.
    + intros mode H1 H2. handler. unfold TodoList.filteredTodos. simpl.
      rewrite (str_eq_false _ _ H1), (str_eq_false _ _ H2). apply filter_true.
  - assert (Ha : SingleUser.filteredTodos
                   (comp (after E (SingleUser.clickFilter (lit "active")) c))
                 = List.filter (fun t => negb (completed t)) (SingleUser.todos c))
      by reflexivity.
    assert (Hc : SingleUser.filteredTodos
                   (comp (after E (SingleUser.clickFilter (lit "completed")) c))
                 = List.filter completed (SingleUser.todos c))
      by reflexivity.
    rewrite Ha, Hc. split; [apply filter_split_perm|]. split.
    + intros t H1 H2. apply filter_In in H1. apply filter_In in H2.
      destruct H1 as (_ & H1), H2 as (_ & H2). rewrite H2 in H1. discriminate.
    + intros mode H1 H2. handler. unfold SingleUser.filteredTodos. simpl.
      rewrite (str_eq_false _ _ H1), (str_eq_false _ _ H2). apply filter_true.
Qed.

(** ** Ids *)

Lemma subseq_refl {A : Type} (l : list A) : subseq l l.
Proof. induction l; constructor; assumption. Qed.

Lemma subseq_map {A B : Type} (f : A -> B) (l l' : list A) :
  subseq l l' -> subseq (List.map f l) (List.map f l').
Proof. induction 1; simpl; constructor; assumption. Qed.

Lemma subseq_NoDup {A : Type} (l l' : list A) : subseq l l' -> NoDup l' -> NoDup l.
Proof.
  induction 1 as [|x l l' Hs IH|x l l' Hs IH]; intros Hd.
  - constructor.
  - inversion Hd; subst. auto.
  - inversion Hd as [|y ys Hx Hd']; subst. constructor; [|auto].
    intros Hin. apply Hx. exact (subseq_incl _ _ Hs x Hin).
Qed.

Lemma edited_ids (i : Z) (v : jsstring) (l l' : list todo) :
  Forall2 (edited i v) l l' -> List.map id l' = List.map id l.
Proof.
  induction 1 as [|x y l l' (H & _) _ IH]; simpl; [reflexivity|].
  rewrite H, IH. reflexivity.
Qed.

Lemma ids_filter_subseq (p : todo -> bool) (l : list todo) :
  subseq (List.map id (List.filter p l)) (List.map id l).
Proof. apply subseq_map, filter_subseq. Qed.

Lemma ids_flip_subseq (i : Z) (l : list todo) :
  subseq
    (List.map id
       (List.map (fun t => if (id t =? i)%Z
                           then SingleUser.with_completed t (negb (completed t)) else t) l))
    (List.map id l).
Proof. rewrite flip_ids. apply subseq_refl. Qed.

Lemma todoList_ids_subseq (E : env) (a : Op.authenticated) (c : TodoList.component) :
  a <> Op.Load -> a <> Op.Add ->
  subseq (List.map id (TodoList.todos (comp (after E (Op.todoList a) c))))
         (List.map id (TodoList.todos c)).
Proof.
  intros H1 H2. destruct a; try congruence; simpl Op.todoList; handler.
  - destruct (List.find _ _); simpl; [|auto using subseq_refl, ids_filter_subseq, ids_flip_subseq].
    destruct (TodoList.user c); simpl; [|auto using subseq_refl, ids_filter_subseq, ids_flip_subseq].
    destruct (Supabase.error _); simpl; [auto using subseq_refl, ids_filter_subseq, ids_flip_subseq|].
    map_step (toggle_map i) l1 Hl. rewrite (toggled_ids _ _ _ Hl). apply subseq_refl.
  - destruct (TodoList.user c); simpl; [|auto using subseq_refl, ids_filter_subseq, ids_flip_subseq].
    destruct (Supabase.error _); simpl; [auto using subseq_refl, ids_filter_subseq, ids_flip_subseq|].
    map_step (edit_map i (trim (TodoList.editText c))) l1 Hl.
    rewrite (edited_ids _ _ _ _ Hl). apply subseq_refl.
  - destruct (TodoList.user c); simpl; [|auto using subseq_refl, ids_filter_subseq, ids_flip_subseq].
    destruct (Supabase.error _); simpl; auto using subseq_refl, ids_filter_subseq, ids_flip_subseq.
  - destruct (TodoList.user c); simpl; [|auto using subseq_refl, ids_filter_subseq, ids_flip_subseq].
    destruct (Supabase.error _); simpl; auto using subseq_refl, ids_filter_subseq, ids_flip_subseq.
Qed.

Lemma page_ids_subseq (E : env) (a : Op.single_user) (c : SingleUser.component) :
  a <> Op.SLoad -> a <> Op.SAdd ->
  subseq (List.map id (SingleUser.todos (comp (after E (Op.page a) c))))
         (List.map id (SingleUser.todos c)).
Proof.
  intros H1 H2. destruct a; try congruence; simpl Op.page; handler.
  - destruct (List.find _ _); simpl; [|auto using subseq_refl, ids_filter_subseq, ids_flip_subseq].
    destruct (Supabase.error _); simpl; auto using subseq_refl, ids_filter_subseq, ids_flip_subseq.
  - destruct (Supabase.error _); simpl; auto using subseq_refl, ids_filter_subseq, ids_flip_subseq.
  - destruct (Supabase.error _); simpl; auto using subseq_refl, ids_filter_subseq, ids_flip_subseq.
Qed.

Lemma part000_ids_subseq (E : env) (a : Op.single_user) (c : SingleUser.component) :
  a <> Op.SLoad -> a <> Op.SAdd ->
  subseq (List.map id (SingleUser.todos (comp (after E (Op.part000 a) c))))
         (List.map id (SingleUser.todos c)).
Proof.
  intros H1 H2. destruct a; try congruence; simpl Op.part000; handler.
  - destruct (List.find _ _); simpl; [|auto using subseq_refl, ids_filter_subseq, ids_flip_subseq].
    destruct (Supabase.error _); simpl; auto using subseq_refl, ids_filter_subseq, ids_flip_subseq.
  - destruct (Supabase.error _); simpl; auto using subseq_refl, ids_filter_subseq, ids_flip_subseq.
  - destruct (Supabase.error _); simpl; auto using subseq_refl, ids_filter_subseq, ids_flip_subseq.
Qed.

(** X17.  Toggle, edit, delete and clear-completed never bring an id
    into the list, whatever the hosted table answers: the ids after are
    those before with some left out, in the same order; so pairwise
    distinct ids stay pairwise distinct. *)
Theorem ids_only_leave (E : env) :
  (forall a c, a <> Op.Load -> a <> Op.Add ->
     subseq (List.map id (TodoList.todos (comp (after E (Op.todoList a) c))))
            (List.map id (TodoList.todos c))
     /\ (NoDup (List.map id (TodoList.todos c)) ->
         NoDup (List.map id (TodoList.todos (comp (after E (Op.todoList a) c))))))
  /\ (forall a c, a <> Op.SLoad -> a <> Op.SAdd ->
     subseq (List.map id (SingleUser.todos (comp (after E (Op.page a) c))))
            (List.map id (SingleUser.todos c))
     /\ subseq (List.map id (SingleUser.todos (comp (after E (Op.part000 a) c))))
               (List.map id (SingleUser.todos c))
     /\ (NoDup (List.map id (SingleUser.todos c)) ->
         NoDup (List.map id (SingleUser.todos (comp (after E (Op.page a) c))))
         /\ NoDup (List.map id (SingleUser.todos (comp (after E (Op.part000 a) c)))))).
Proof.
  split; intros a c H1 H2.
  - pose proof (todoList_ids_subseq E a c H1 H2) as Hs.
    split; [exact Hs | exact (subseq_NoDup _ _ Hs)].
  - pose proof (page_ids_subseq E a c H1 H2) as Hp.
    pose proof (part000_ids_subseq E a c H1 H2) as Hq.
    split; [exact Hp|]. split; [exact Hq|].
    intros Hd. split; [exact (subseq_NoDup _ _ Hp Hd) | exact (subseq_NoDup _ _ Hq Hd)].
Qed.

Lemma ids_only_leave_witness :
  Op.Delete 1 <> Op.Load /\ Op.Delete 1 <> Op.Add
  /\ subseq (List.map id (TodoList.todos
                            (comp (after Sample.table_up (Op.todoList (Op.Delete 1))
                                     (Sample.signed_in [] [])))))
            (List.map id (TodoList.todos (Sample.signed_in [] []))).
Proof.
  split; [discriminate|]. split; [discriminate|].
  apply (proj1 (ids_only_leave Sample.table_up)); discriminate.
Defined.

(** ** The error state *)

(** X18.  Only [addTodo] resets the error state.  A load, toggle, edit,
    delete or clear that logs nothing, so one that went through, leaves
    the error state as it was: a message shown earlier stays. *)
Theorem error_state_kept (E : env) :
  (forall a c, a <> Op.Add ->
     logged (trace (after E (Op.todoList a) c)) = [] ->
     TodoList.error (comp (after E (Op.todoList a) c)) = TodoList.error c)
  /\ (forall a c, a <> Op.SAdd ->
     logged (trace (after E (Op.page a) c)) = [] ->
     SingleUser.error (comp (after E (Op.page a) c)) = SingleUser.error c).
Proof.
  split; intros a c Ha.
  - destruct a; try congruence; simpl Op.todoList; handler.
    + destruct (TodoList.user c); [|quiet].
      simpl. destruct (Supabase.error _); quiet.
    + destruct (List.find _ _); [|quiet]. simpl.
      destruct (TodoList.user c); [|quiet].
      simpl. destruct (Supabase.error _); [quiet|]. simpl.
      map_step (toggle_map i) l1 Hl. reflexivity.
    + destruct (TodoList.user c); [|quiet].
      simpl. destruct (Supabase.error _); [quiet|]. simpl.
      map_step (edit_map i (trim (TodoList.editText c))) l1 Hl. reflexivity.
    + destruct (TodoList.user c); [|quiet].
      simpl. destruct (Supabase.error _); quiet.
    + destruct (TodoList.user c); [|quiet].
      simpl. destruct (Supabase.error _); quiet.
  - destruct a; try congruence; simpl Op.page; handler.
    + destruct (Supabase.error _); quiet.
    + destruct (List.find _ _); [|quiet]. simpl. destruct (Supabase.error _); quiet.
    + destruct (Supabase.error _); quiet.
    + destruct (Supabase.error _); quiet.
Qed.

Lemma error_state_kept_witness :
  Op.Delete 1 <> Op.Add
  /\ logged (trace (after Sample.table_up (Op.todoList (Op.Delete 1))
                      (Scenario.with_todos [Sample.taskA]))) = []
  /\ TodoList.error (comp (after Sample.table_up (Op.todoList (Op.Delete 1))
                             (Scenario.with_todos [Sample.taskA])))
     = Some (lit "Failed to fetch").
Proof.
  assert (H : Op.Delete 1 <> Op.Add) by discriminate.
  split; [exact H|]. split; [reflexivity|].
  exact (proj1 (error_state_kept Sample.table_up) (Op.Delete 1)
               (Scenario.with_todos [Sample.taskA]) H eq_refl).
Defined.

(** ** The two single-user copies *)

(** X19.  The older single-user copy and src/app/page.js differ in the
    error state only: every operation sends the same requests, logs the
    same lines, ends with the same list, input, filter and loading flag
    in both. *)
Theorem single_user_copies_agree (E : env) (a : Op.single_user) (c : SingleUser.component) :
  trace (after E (Op.part000 a) c) = trace (after E (Op.page a) c)
  /\ SingleUser.todos (comp (after E (Op.part000 a) c))
     = SingleUser.todos (comp (after E (Op.page a) c))
  /\ SingleUser.newTodo (comp (after E (Op.part000 a) c))
     = SingleUser.newTodo (comp (after E (Op.page a) c))
  /\ SingleUser.filter (comp (after E (Op.part000 a) c))
     = SingleUser.filter (comp (after E (Op.page a) c))
  /\ SingleUser.loading (comp (after E (Op.part000 a) c))
     = SingleUser.loading (comp (after E (Op.page a) c))
  /\ result E (Op.part000 a) c = result E (Op.page a) c.
Proof.
  destruct a; simpl Op.part000; simpl Op.page; try (repeat split; reflexivity); handler.
  - destruct (List.find _ _); simpl; [|repeat split].
    destruct (Supabase.error _); repeat split.
  - destruct (Supabase.error _); repeat split.
  - destruct (Supabase.error _); repeat split.
Qed.

(** ** The row being edited *)

(** X20.  After [startEditing t], with pairwise distinct ids and [t] a
    task of the list, the only row rendered with an editor is the row
    of [t], and its editor holds the text of [t]. *)
Theorem startEditing_one_editor (E : env) (t : todo) (c : TodoList.component) :
  NoDup (List.map id (TodoList.todos c)) -> In t (TodoList.todos c) ->
  forall r,
    In r (List.map (TodoListView.renderRow (comp (after E (TodoList.startEditing t) c)))
            (TodoList.filteredTodos (comp (after E (TodoList.startEditing t) c)))) ->
    (TodoListView.shown r = t /\ TodoListView.editor r = Some (text t))
    \/ (id (TodoListView.shown r) <> id t /\ TodoListView.editor r = None).
Proof.
  intros Hd Hin r Hr. apply in_map_iff in Hr. destruct Hr as (x & <- & Hx).
  revert Hx. handler. unfold TodoList.filteredTodos, TodoListView.renderRow. simpl.
  intros Hx. apply filter_In in Hx. destruct Hx as (Hx & _).
  destruct (id t =? id x)%Z eqn:He.
  - left. apply Z.eqb_eq in He. split; [|reflexivity].
    apply (unique_by_id _ t x Hd Hin Hx). symmetry. exact He.
  - right. apply Z.eqb_neq in He. split; [congruence | reflexivity].
Qed.

Lemma startEditing_one_editor_witness :
  NoDup (List.map id (TodoList.todos (Sample.signed_in [] [])))
  /\ In Sample.taskB (TodoList.todos (Sample.signed_in [] []))
  /\ List.map TodoListView.editor
       (List.map (TodoListView.renderRow
                    (comp (after Sample.table_up (TodoList.startEditing Sample.taskB)
                             (Sample.signed_in [] []))))
          (TodoList.filteredTodos
             (comp (after Sample.table_up (TodoList.startEditing Sample.taskB)
                      (Sample.signed_in [] [])))))
     = [None; Some (lit "B")]
  /\ forall r,
       In r (List.map (TodoListView.renderRow
                         (comp (after Sample.table_up (TodoList.startEditing Sample.taskB)
                                  (Sample.signed_in [] []))))
               (TodoList.filteredTodos
                  (comp (after Sample.table_up (TodoList.startEditing Sample.taskB)
                           (Sample.signed_in [] []))))) ->
       (TodoListView.shown r = Sample.taskB
        /\ TodoListView.editor r = Some (text Sample.taskB))
       \/ (id (TodoListView.shown r) <> id Sample.taskB /\ TodoListView.editor r = None).
Proof.
  split; [exact sample_ids_distinct|]. split; [right; left; reflexivity|].
  split; [reflexivity|].
  exact (startEditing_one_editor Sample.table_up Sample.taskB (Sample.signed_in [] [])
           sample_ids_distinct (or_intror (or_introl eq_refl))).
Defined.

(** ** What is written is what is shown *)

Lemma find_in (p : todo -> bool) (l : list todo) (t : todo) :
  List.find p l = Some t -> In t l.
Proof. intros H. exact (proj1 (find_some _ _ H)). Qed.

Lemma Forall2_in_right {A B : Type} (R : A -> B -> Prop) (l : list A) (l' : list B) (y : B) :
  Forall2 R l l' -> In y l' -> exists x, In x l /\ R x y.
Proof.
  induction 1 as [|a b l l' Hab _ IH]; simpl; [tauto|].
  intros [<-|Hy].
  - exists a. split; [left; reflexivity | exact Hab].
  - destruct (IH Hy) as (x & Hx & Hr). exists x. split; [right; exact Hx | exact Hr].
Qed.

(** X21.  With pairwise distinct ids, an accepted toggle shows what it
    wrote: the flag sent to the hosted table for id [i] is the flag the
    task of id [i] has in the list afterwards, and an accepted edit
    shows the text it sent. *)
Theorem write_matches_view (E : env) (i : Z) :
  succeeds E ->
  (forall c u,
     TodoList.user c = Some u ->
     NoDup (List.map id (TodoList.todos c)) -> In i (List.map id (TodoList.todos c)) ->
     (exists v,
        requests (trace (after E (TodoList.toggleTodo i) c))
        = [Supabase.UpdateCompleted i v (Some (clock E 0)) (Some u)]
        /\ forall t', In t' (TodoList.todos (comp (after E (TodoList.toggleTodo i) c))) ->
                      id t' = i -> completed t' = v)
     /\ (requests (trace (after E (TodoList.saveEdit i) c))
         = [Supabase.UpdateText i (trim (TodoList.editText c)) (Some (clock E 0)) (Some u)]
         /\ forall t', In t' (TodoList.todos (comp (after E (TodoList.saveEdit i) c))) ->
                       id t' = i -> text t' = trim (TodoList.editText c)))
  /\ (forall c,
     NoDup (List.map id (SingleUser.todos c)) -> In i (List.map id (SingleUser.todos c)) ->
     exists v,
       requests (trace (after E (Page.toggleTodo i) c))
       = [Supabase.UpdateCompleted i v None None]
       /\ after E (Part000.toggleTodo i) c = after E (Page.toggleTodo i) c
       /\ forall t', In t' (SingleUser.todos (comp (after E (Page.toggleTodo i) c))) ->
                     id t' = i -> completed t' = v).
Proof.
  intros Hok. split.
  - intros c u Hu Hd Hin. split.
    + destruct (find_present i _ Hin) as (t & Hf & Ht).
      exists (negb (completed t)). handler. rewrite Hf. simpl. rewrite Hu. simpl.
      rewrite Hok. simpl. map_step (toggle_map i) l1 H1.
      split; [reflexivity|]. intros t' Ht' Hid.
      destruct (Forall2_in_right _ _ _ _ H1 Ht') as (x & Hx & (a1 & _ & _ & _ & a5)).
      assert (x = t).
      { apply (unique_by_id _ t x Hd (find_in _ _ _ Hf) Hx). congruence. }
      subst x. rewrite a5, Ht, Z.eqb_refl. reflexivity.
    + handler. rewrite Hu. simpl. rewrite Hok. simpl.
      map_step (edit_map i (trim (TodoList.editText c))) l1 H1.
      split; [reflexivity|]. intros t' Ht' Hid.
      destruct (Forall2_in_right _ _ _ _ H1 Ht') as (x & Hx & (a1 & _ & _ & _ & a5)).
      rewrite a5. rewrite <- a1, Hid, Z.eqb_refl. reflexivity.
  - intros c Hd Hin.
    destruct (find_present i _ Hin) as (t & Hf & Ht).
    exists (negb (completed t)). handler. rewrite Hf. simpl. rewrite Hok. simpl.
    split; [reflexivity|]. split; [reflexivity|]. intros t' Ht' Hid.
    apply in_map_iff in Ht'. destruct Ht' as (x & <- & Hx).
    destruct (id x =? i)%Z eqn:He.
    + apply Z.eqb_eq in He.
      assert (x = t).
      { apply (unique_by_id _ t x Hd (find_in _ _ _ Hf) Hx). congruence. }
      subst x. reflexivity.
    + apply Z.eqb_neq in He. contradiction.
Qed.

Lemma write_matches_view_witness :
  succeeds Sample.table_up
  /\ NoDup (List.map id (SingleUser.todos (Sample.single [])))
  /\ In 2%Z (List.map id (SingleUser.todos (Sample.single [])))
  /\ requests (trace (after Sample.table_up (Page.toggleTodo 2) (Sample.single [])))
     = [Supabase.UpdateCompleted 2 false None None]
  /\ exists v,
       requests (trace (after Sample.table_up (Page.toggleTodo 2) (Sample.single [])))
       = [Supabase.UpdateCompleted 2 v None None]
       /\ after Sample.table_up (Part000.toggleTodo 2) (Sample.single [])
          = after Sample.table_up (Page.toggleTodo 2) (Sample.single [])
       /\ forall t',
            In t' (SingleUser.todos (comp (after Sample.table_up (Page.toggleTodo 2)
                                            (Sample.single [])))) ->
            id t' = 2%Z -> completed t' = v.
Proof.
  split; [exact table_up_succeeds|]. split; [exact sample_ids_distinct|].
  split; [right; left; reflexivity|]. split; [reflexivity|].
  exact (proj2 (write_matches_view Sample.table_up 2 table_up_succeeds)
               (Sample.single []) sample_ids_distinct (or_intror (or_introl eq_refl))).
Defined.

(** With two rows under one id the flag sent is not the flag shown for
    both: distinct ids are needed above. *)
Example write_differs_on_duplicate_ids :
  requests (trace (after Sample.table_up (TodoList.toggleTodo 1)
                     (Scenario.with_todos [Sample.taskA; Scenario.taskA'])))
  = [Supabase.UpdateCompleted 1 true (Some (Sample.stamp 0)) (Some 7%Z)]
  /\ List.map completed
       (TodoList.todos (comp (after Sample.table_up (TodoList.toggleTodo 1)
                                (Scenario.with_todos [Sample.taskA; Scenario.taskA']))))
     = [true; false].
Proof. split; reflexivity. Qed.

(** ** Identity and navigation *)

(** X22.  The login form and the sign-out button navigate only after
    the identity call resolved.  [handleSubmit] makes one call, [signIn]
    in login mode and [signUp] otherwise, with the typed email and
    password; it goes to "/" exactly when the call resolved, shows the
    message of the rejection otherwise, and always ends with
    [loading = false].  [handleSignOut] goes to "/auth" exactly when
    [signOut] resolved and never touches the list. *)
Theorem navigation_follows_success :
  (forall auth c,
     AuthPage.loading (fst (AuthPage.handleSubmit auth c)) = false
     /\ AuthPage.isLogin (fst (AuthPage.handleSubmit auth c)) = AuthPage.isLogin c
     /\ AuthPage.email (fst (AuthPage.handleSubmit auth c)) = AuthPage.email c
     /\ AuthPage.password (fst (AuthPage.handleSubmit auth c)) = AuthPage.password c
     /\ exists call,
          call = (if AuthPage.isLogin c
                  then Nav.SignIn (AuthPage.email c) (AuthPage.password c)
                  else Nav.SignUp (AuthPage.email c) (AuthPage.password c))
          /\ List.filter (fun a => match a with
                                   | Nav.SignIn _ _ | Nav.SignUp _ _ | Nav.SignOut => true
                                   | _ => false
                                   end)
                         (snd (AuthPage.handleSubmit auth c)) = [call]
          /\ (In (Nav.Push (lit "/")) (snd (AuthPage.handleSubmit auth c))
              <-> auth call = None)
          /\ (AuthPage.error (fst (AuthPage.handleSubmit auth c)) = None
              <-> auth call = None)
          /\ (forall e, auth call = Some e ->
                        AuthPage.error (fst (AuthPage.handleSubmit auth c))
                        = Some (message e)))
  /\ (forall signOut c,
     TodoList.todos (fst (handleSignOut signOut c)) = TodoList.todos c
     /\ (In (Nav.Push (lit "/auth")) (snd (handleSignOut signOut c)) <-> signOut = None)
     /\ (forall e, signOut = Some e ->
                   TodoList.error (fst (handleSignOut signOut c)) = Some (message e))
     /\ (signOut = None -> fst (handleSignOut signOut c) = c)).
Proof.
  split.
  - intros auth c. unfold AuthPage.handleSubmit.
    destruct (AuthPage.isLogin c) eqn:Hl;
      match goal with |- context [auth ?k] => destruct (auth k) as [e|] eqn:Ha end;
      simpl;
      (split; [reflexivity|]); (split; [exact Hl|]);
      (split; [reflexivity|]); (split; [reflexivity|]);
      eexists; (split; [reflexivity|]); (split; [reflexivity|]);
      rewrite Ha; (split; [|split]).
    all: try (split; [intros [H|[H|[]]]; discriminate H | intros H; discriminate H]).
    all: try (split; intros H; discriminate H).
    all: try (intros e0 H; injection H as <-; reflexivity).
    all: try (split; [reflexivity | intros _; right; right; left; reflexivity]).
    all: try (split; reflexivity).
    all: try (intros e0 H; discriminate H).
  - intros [e|] c; simpl; (split; [reflexivity|]); (split; [|split]).
    + split; [intros [H|[]]; discriminate H | intros H; discriminate H].
    + intros e0 H. injection H as <-. reflexivity.
    + intros H. discriminate H.
    + split; [reflexivity | intros _; right; left; reflexivity].
    + intros e0 H. discriminate H.
    + reflexivity.
Qed.

(** X23.  [Home] renders the list only for a signed-in user.  Without a
    user it renders nothing and goes to "/auth".  With one, the
    component starts on the spinner, and its effect sends the one
    select scoped to that user and ends the spinner, whatever the
    hosted table answers. *)
Theorem home_gate (E : env) :
  Home None = (None, [Nav.Push (lit "/auth")])
  /\ forall u, exists c,
       Home (Some u) = (Some c, [])
       /\ TodoList.user c = Some u
       /\ TodoListView.render c = TodoListView.Spinner
       /\ requests (trace (after E Mount.todoListEffect c)) = [Supabase.Select (Some u)]
       /\ TodoListView.render (comp (after E Mount.todoListEffect c))
          <> TodoListView.Spinner
       /\ result E Mount.todoListEffect c = Ret tt.
Proof.
  split; [reflexivity|]. intros u. eexists. split; [reflexivity|].
  split; [reflexivity|]. split; [reflexivity|].
  unfold TodoListView.render. handler'.
  destruct (Supabase.error _); simpl; repeat split; discriminate.
Qed.

(** ** The first load, as rendered *)

(** X24.  After the first load the main view shows the rows the hosted
    table returned, in its order and with no banner; when the table
    refused, the view has no row, shows the empty state and no clear
    button, and the banner holds the message, unless the message is the
    empty string, which renders no banner. *)
Theorem first_load_view (E : env) (u : Z) :
  exists m,
    TodoListView.render (comp (after E Mount.todoListEffect (Mount.todoList (Some u))))
    = TodoListView.Main m
    /\ (Supabase.error (remote E [] (Supabase.Select (Some u))) = None ->
        List.map TodoListView.shown (TodoListView.rows m)
        = match Supabase.data (remote E [] (Supabase.Select (Some u))) with
          | Some d => d
          | None => []
          end
        /\ TodoListView.banner m = None)
    /\ (forall msg,
          Supabase.error (remote E [] (Supabase.Select (Some u))) = Some msg ->
          TodoListView.rows m = [] /\ TodoListView.emptyState m = true
          /\ TodoListView.clearButton m = false
          /\ TodoListView.banner m = if truthy msg then Some msg else None).
Proof.
  unfold TodoListView.render. handler'.
  destruct (Supabase.error _) as [msg|]; simpl; eexists; (split; [reflexivity|]); simpl.
  - split; [intros H; discriminate H|].
    intros msg' H. injection H as <-. repeat split.
  - split; [|intros msg' H; discriminate H]. intros _. split; [|reflexivity].
    unfold TodoList.filteredTodos. simpl.
    change (str_eq (lit "all") (lit "active")) with false.
    change (str_eq (lit "all") (lit "completed")) with false.
    cbv iota. rewrite filter_true, map_map. simpl. apply map_id.
Qed.

(** ** Adding twice *)

(** X25.  A second submit right after an add that went through adds
    nothing: the input was emptied, so the second [addTodo] sends no
    request, leaves the new row at the head of the list and shows the
    validation message. *)
Theorem double_submit_adds_once (E : env) :
  inserts E ->
  (forall c u,
     trim (TodoList.newTodo c) <> [] -> TodoList.user c = Some u ->
     exists d,
       TodoList.todos (comp (then_after E TodoList.addTodo (after E TodoList.addTodo c)))
       = d :: TodoList.todos c
       /\ List.length (requests (trace (then_after E TodoList.addTodo
                                          (after E TodoList.addTodo c)))) = 1%nat
       /\ TodoList.error (comp (then_after E TodoList.addTodo (after E TodoList.addTodo c)))
          = Some (lit "Todo text cannot be empty"))
  /\ (forall c,
     trim (SingleUser.newTodo c) <> [] ->
     exists d,
       SingleUser.todos (comp (then_after E Page.addTodo (after E Page.addTodo c)))
       = d :: SingleUser.todos c
       /\ then_after E Part000.addTodo (after E Part000.addTodo c)
          = then_after E Page.addTodo (after E Page.addTodo c)
       /\ List.length (requests (trace (then_after E Page.addTodo
                                          (after E Page.addTodo c)))) = 1%nat
       /\ SingleUser.error (comp (then_after E Page.addTodo (after E Page.addTodo c)))
          = Some (lit "Todo text cannot be empty")).
Proof.
  intros Hins. split.
  - intros c u Hs Hu.
    assert (Ht : truthy (trim (TodoList.newTodo c)) = true)
      by (destruct (trim (TodoList.newTodo c)); [congruence | reflexivity]).
    handler. rewrite Ht, Hu. simpl.
    match goal with |- context [remote E [] (Supabase.Insert ?row)] =>
      destruct (Hins [] row) as (d & rest & ->) end.
    simpl. exists d. repeat split.
  - intros c Hs.
    assert (Ht : truthy (trim (SingleUser.newTodo c)) = true)
      by (destruct (trim (SingleUser.newTodo c)); [congruence | reflexivity]).
    handler. rewrite Ht. simpl.
    match goal with |- context [remote E [] (Supabase.Insert ?row)] =>
      destruct (Hins [] row) as (d & rest & ->) end.
    simpl. exists d. repeat split.
Qed.

Lemma table_up_inserts : inserts Sample.table_up.
Proof. intros h row. eexists _, []. reflexivity. Qed.

Lemma double_submit_adds_once_witness :
  inserts Sample.table_up
  /\ trim (TodoList.newTodo (Sample.signed_in (lit "Buy milk") [])) <> []
  /\ TodoList.user (Sample.signed_in (lit "Buy milk") []) = Some 7%Z
  /\ exists d,
       TodoList.todos (comp (then_after Sample.table_up TodoList.addTodo
                               (after Sample.table_up TodoList.addTodo
                                  (Sample.signed_in (lit "Buy milk") []))))
       = d :: TodoList.todos (Sample.signed_in (lit "Buy milk") [])
       /\ List.length
            (requests (trace (then_after Sample.table_up TodoList.addTodo
                                (after Sample.table_up TodoList.addTodo
                                   (Sample.signed_in (lit "Buy milk") []))))) = 1%nat
       /\ TodoList.error (comp (then_after Sample.table_up TodoList.addTodo
                                  (after Sample.table_up TodoList.addTodo
                                     (Sample.signed_in (lit "Buy milk") []))))
          = Some (lit "Todo text cannot be empty").
Proof.
  assert (Hs : trim (TodoList.newTodo (Sample.signed_in (lit "Buy milk") [])) <> [])
    by (vm_compute; discriminate).
  split; [exact table_up_inserts|]. split; [exact Hs|]. split; [reflexivity|].
  exact (proj1 (double_submit_adds_once Sample.table_up table_up_inserts)
               (Sample.signed_in (lit "Buy milk") []) 7%Z Hs eq_refl).
Defined.

(** X26.  Newest first: two adds that go through, with the second text
    typed in between, leave the second row at the head of the list, the
    first row next and the former list after them. *)
Theorem two_adds_newest_first (E : env) (v : jsstring) :
  inserts E -> trim v <> [] ->
  (forall c u,
     trim (TodoList.newTodo c) <> [] -> TodoList.user c = Some u ->
     exists d1 d2,
       TodoList.todos (comp (after E TodoList.addTodo c)) = d1 :: TodoList.todos c
       /\ TodoList.todos
            (comp (then_after E TodoList.addTodo
                     (then_after E (Mount.typeNewTodo v) (after E TodoList.addTodo c))))
          = d2 :: d1 :: TodoList.todos c
       /\ List.map scope_of
            (requests (trace (then_after E TodoList.addTodo
                                (then_after E (Mount.typeNewTodo v)
                                   (after E TodoList.addTodo c)))))
          = [Some u; Some u])
  /\ (forall c,
     trim (SingleUser.newTodo c) <> [] ->
     exists d1 d2,
       SingleUser.todos (comp (after E Page.addTodo c)) = d1 :: SingleUser.todos c
       /\ SingleUser.todos
            (comp (then_after E Page.addTodo
                     (then_after E (Mount.typeNewTodoSingle v) (after E Page.addTodo c))))
          = d2 :: d1 :: SingleUser.todos c).
Proof.
  intros Hins Hv.
  assert (Htv : truthy (trim v) = true)
    by (destruct (trim v); [congruence | reflexivity]).
  split.
  - intros c u Hs Hu.
    assert (Ht : truthy (trim (TodoList.newTodo c)) = true)
      by (destruct (trim (TodoList.newTodo c)); [congruence | reflexivity]).
    handler'. rewrite Ht, Hu. simpl.
    match goal with |- context [remote E [] (Supabase.Insert ?row)] =>
      destruct (Hins [] row) as (d1 & rest1 & ->) end.
    simpl. rewrite Htv, ?Hu. simpl.
    match goal with |- context [remote E [?q] (Supabase.Insert ?row)] =>
      destruct (Hins [q] row) as (d2 & rest2 & ->) end.
    simpl. exists d1, d2. repeat split.
  - intros c Hs.
    assert (Ht : truthy (trim (SingleUser.newTodo c)) = true)
      by (destruct (trim (SingleUser.newTodo c)); [congruence | reflexivity]).
    handler'. rewrite Ht. simpl.
    match goal with |- context [remote E [] (Supabase.Insert ?row)] =>
      destruct (Hins [] row) as (d1 & rest1 & ->) end.
    simpl. rewrite Htv. simpl.
    match goal with |- context [remote E [?q] (Supabase.Insert ?row)] =>
      destruct (Hins [q] row) as (d2 & rest2 & ->) end.
    simpl. exists d1, d2. repeat split.
Qed.

Lemma two_adds_newest_first_witness :
  inserts Sample.table_up
  /\ trim (lit "Walk dog") <> []
  /\ trim (SingleUser.newTodo (Sample.single (lit "Buy milk"))) <> []
  /\ List.map text
       (SingleUser.todos
          (comp (then_after Sample.table_up Page.addTodo
                   (then_after Sample.table_up (Mount.typeNewTodoSingle (lit "Walk dog"))
                      (after Sample.table_up Page.addTodo
                         (Sample.single (lit "Buy milk")))))))
     = [lit "Walk dog"; lit "Buy milk"; lit "A"; lit "B"]
  /\ exists d1 d2,
       SingleUser.todos (comp (after Sample.table_up Page.addTodo
                                 (Sample.single (lit "Buy milk"))))
       = d1 :: SingleUser.todos (Sample.single (lit "Buy milk"))
       /\ SingleUser.todos
            (comp (then_after Sample.table_up Page.addTodo
                     (then_after Sample.table_up (Mount.typeNewTodoSingle (lit "Walk dog"))
                        (after Sample.table_up Page.addTodo
                           (Sample.single (lit "Buy milk"))))))
          = d2 :: d1 :: SingleUser.todos (Sample.single (lit "Buy milk")).
Proof.
  assert (Hv : trim (lit "Walk dog") <> []) by (vm_compute; discriminate).
  assert (Hs : trim (SingleUser.newTodo (Sample.single (lit "Buy milk"))) <> [])
    by (vm_compute; discriminate).
  split; [exact table_up_inserts|]. split; [exact Hv|]. split; [exact Hs|].
  split; [reflexivity|].
  exact (proj2 (two_adds_newest_first Sample.table_up (lit "Walk dog")
                  table_up_inserts Hv)
               (Sample.single (lit "Buy milk")) Hs).
Defined.
